(** * Bibliography verification and grading pipeline of grading_agent

    A shallow embedding of [bibliography.py], [tools.py] and [agent.py].

    - A Python [str] is modelled as the [string] of its UTF-8 bytes;
      [utf8_chars] reads its code points where the code works on them
      ([len], [str.strip], [repr], [json.dumps]).
    - Values produced by [json.loads] are modelled by [json]; [json.loads]
      itself is a parameter ([json_loads]) returning [None] exactly when it
      raises [JSONDecodeError], so every theorem holds for any decoder.
    - Effects (external calls, sleeps, exceptions, a call that never
      returns) are modelled by the monad [M]: a computation takes the trace
      of events performed so far and ends in [Ret], [Raise] or [Diverge],
      together with the extended trace.
    - The web search, the LLM and the agent are oracles that may depend on
      the whole history of events. *)

From Stdlib Require Import ZArith Bool Ascii.
From Stdlib Require String.
From stdpp Require Import base gmap strings list.

Set Warnings "-register-all".

(* ------------------------------------------------------------------ *)
(** ** Python strings *)

Definition chr (n : nat) : string := String.String (ascii_of_nat n) String.EmptyString.

(** The double quote and newline characters. *)
Definition dq : string := chr 34.
Definition nl : string := chr 10.

(** [str.find(sep)]: index of the first occurrence. *)
Definition py_find (sep s : string) : option nat := String.index 0 sep s.

(** [sep in s]. *)
Definition py_in (sep s : string) : bool :=
  match py_find sep s with Some _ => true | None => false end.

(** [s[n:]]. *)
Definition py_drop (n : nat) (s : string) : string :=
  String.substring n (String.length s - n) s.

(** [s.split(sep)] for a non-empty separator: cut at the first occurrence,
    then split the rest; [fuel] bounds the number of cuts. *)
Fixpoint py_split_fuel (fuel : nat) (sep s : string) : list string :=
  match fuel with
  | O => [s]
  | S fuel' =>
      match py_find sep s with
      | None => [s]
      | Some i =>
          String.substring 0 i s
            :: py_split_fuel fuel' sep (py_drop (i + String.length sep) s)
      end
  end.

Definition py_split (sep s : string) : list string :=
  py_split_fuel (S (String.length s)) sep s.


(** Replaces every [^] by a double quote (used to write text that contains
    double quotes). *)
Fixpoint quotes (s : string) : string :=
  match s with
  | String.EmptyString => ""
  | String.String c s' => (if Ascii.eqb c "^"%char then dq else String.String c String.EmptyString) +:+ quotes s'
  end.


(** Decimal rendering of a natural number, as [str(n)]. *)
Fixpoint digits_fuel (fuel n : nat) (acc : string) : string :=
  match fuel with
  | O => acc
  | S f =>
      let acc' := String.String (ascii_of_nat (48 + n mod 10)) acc in
      if n <? 10 then acc' else digits_fuel f (n / 10) acc'
  end.

Definition str_nat (n : nat) : string := digits_fuel (S n) n "".

Definition str_Z (z : Z) : string :=
  if (z <? 0)%Z then "-" +:+ str_nat (Z.to_nat (- z)) else str_nat (Z.to_nat z).

(* ------------------------------------------------------------------ *)
(** ** Code points

    A Python [str] is held as its UTF-8 encoding.  [utf8_chars] reads the
    code points back, each with the bytes that encode it.  A byte that does
    not start a well-formed sequence (too short, or too long for its code
    point; the encoding of a Python string has none) is read as the code
    point of its own value. *)

Definition byte_val (c : ascii) : Z := Z.of_nat (nat_of_ascii c).

Definition is_cont (c : ascii) : bool := (128 <=? byte_val c)%Z && (byte_val c <? 192)%Z.

Fixpoint utf8_chars (s : string) : list (Z * string) :=
  match s with
  | String.EmptyString => []
  | String.String c1 s1 =>
      let b1 := byte_val c1 in
      if (b1 <? 194)%Z then (b1, String.String c1 String.EmptyString) :: utf8_chars s1
      else if (b1 <? 224)%Z then
        match s1 with
        | String.String c2 s2 =>
            if is_cont c2
            then (((b1 - 192) * 64 + (byte_val c2 - 128))%Z,
                  String.String c1 (String.String c2 String.EmptyString)) :: utf8_chars s2
            else (b1, String.String c1 String.EmptyString) :: utf8_chars s1
        | _ => (b1, String.String c1 String.EmptyString) :: utf8_chars s1
        end
      else if (b1 <? 240)%Z then
        match s1 with
        | String.String c2 (String.String c3 s3) =>
            let cp := ((b1 - 224) * 4096 + (byte_val c2 - 128) * 64 + (byte_val c3 - 128))%Z in
            if is_cont c2 && is_cont c3 && (2048 <=? cp)%Z
            then (cp, String.String c1 (String.String c2 (String.String c3 String.EmptyString)))
                   :: utf8_chars s3
            else (b1, String.String c1 String.EmptyString) :: utf8_chars s1
        | _ => (b1, String.String c1 String.EmptyString) :: utf8_chars s1
        end
      else if (b1 <? 245)%Z then
        match s1 with
        | String.String c2 (String.String c3 (String.String c4 s4)) =>
            let cp := ((b1 - 240) * 262144 + (byte_val c2 - 128) * 4096 + (byte_val c3 - 128) * 64 +
                       (byte_val c4 - 128))%Z in
            if is_cont c2 && is_cont c3 && is_cont c4 && (65536 <=? cp)%Z && (cp <=? 1114111)%Z
            then (cp, String.String c1 (String.String c2 (String.String c3
                    (String.String c4 String.EmptyString)))) :: utf8_chars s4
            else (b1, String.String c1 String.EmptyString) :: utf8_chars s1
        | _ => (b1, String.String c1 String.EmptyString) :: utf8_chars s1
        end
      else (b1, String.String c1 String.EmptyString) :: utf8_chars s1
  end.

(** [len(s)]: the number of code points. *)
Definition py_len (s : string) : nat := length (utf8_chars s).

(** A lower-case hexadecimal digit, and [n] written with [w] of them. *)
Definition hex_digit (n : nat) : string :=
  if n <? 10 then chr (48 + n) else chr (87 + n).

Fixpoint hex_width (w : nat) (n : Z) : string :=
  match w with
  | O => ""
  | S w' => hex_width w' (n / 16)%Z +:+ hex_digit (Z.to_nat (n mod 16)%Z)
  end.

(** [str.isspace()] of one code point: the characters that [str.strip()]
    removes (\t \n \v \f \r, \x1c-\x1f, the space, U+0085, U+00A0,
    U+1680, U+2000-U+200A, U+2028, U+2029, U+202F, U+205F, U+3000). *)
Definition py_isspace (cp : Z) : bool :=
  ((9 <=? cp) && (cp <=? 13))%Z || ((28 <=? cp) && (cp <=? 32))%Z || (cp =? 133)%Z || (cp =? 160)%Z ||
  (cp =? 5760)%Z || ((8192 <=? cp) && (cp <=? 8202))%Z || (cp =? 8232)%Z || (cp =? 8233)%Z ||
  (cp =? 8239)%Z || (cp =? 8287)%Z || (cp =? 12288)%Z.

Fixpoint drop_space (cs : list (Z * string)) : list (Z * string) :=
  match cs with
  | [] => []
  | cb :: cs' => if py_isspace cb.1 then drop_space cs' else cs
  end.

(** The string made of the given code points. *)
Definition chars_str (cs : list (Z * string)) : string := String.concat "" (map snd cs).

(** [str.strip()]. *)
Definition py_strip (s : string) : string :=
  chars_str (rev (drop_space (rev (drop_space (utf8_chars s))))).

(* ------------------------------------------------------------------ *)
(** ** Values returned by [json.loads] *)

Inductive json : Type :=
| JNull
| JBool (b : bool)
| JInt (z : Z)
| JFloat (repr : string)          (** a float, kept as its [repr] *)
| JStr (s : string)
| JArr (items : list json)
| JObj (fields : list (string * json)).

(** [d.get(k)] on a decoded object; [json.loads] keeps the last binding of a
    duplicated key. *)
Definition obj_get (fields : list (string * json)) (k : string) : option json :=
  fold_left (fun acc kv => if String.eqb kv.1 k then Some kv.2 else acc) fields None.

(** [d.get(k, default)]. *)
Definition obj_get_default (fields : list (string * json)) (k : string) (d : json) : json :=
  match obj_get fields k with Some v => v | None => d end.

(** The items of the dict built from the pairs [kvs]: each key at its
    first position, with the last value bound to it. *)
Definition dict_keys {A} (kvs : list (string * A)) : list string :=
  fold_left (fun ks kv => if existsb (String.eqb kv.1) ks then ks else ks ++ [kv.1]) kvs [].

Definition last_value {A} (kvs : list (string * A)) (k : string) : option A :=
  fold_left (fun acc kv => if String.eqb kv.1 k then Some kv.2 else acc) kvs None.

Definition dict_items {A} (kvs : list (string * A)) : list (string * A) :=
  flat_map (fun k => match last_value kvs k with Some v => [(k, v)] | None => [] end) (dict_keys kvs).

(** [type(v).__name__]. *)
Definition type_name (v : json) : string :=
  match v with
  | JNull => "NoneType"
  | JBool _ => "bool"
  | JInt _ => "int"
  | JFloat _ => "float"
  | JStr _ => "str"
  | JArr _ => "list"
  | JObj _ => "dict"
  end.

(** Hashable values can be dictionary keys; lists and dicts cannot. *)
Definition hashable (v : json) : bool :=
  match v with JArr _ | JObj _ => false | _ => true end.

(* ------------------------------------------------------------------ *)
(** ** Exceptions, events and the effect monad *)

Inductive py_exn : Type :=
| JSONDecodeError
| IndexError
| KeyError (key : string)
| TypeError (msg : string)
| TimeoutError
| SearchFailure (msg : string)     (** raised by the web search call *)
| ProviderError (msg : string).    (** raised by the LLM provider *)

(** [str(e)]. *)
Definition py_exn_str (e : py_exn) : string :=
  match e with
  | JSONDecodeError => "JSONDecodeError"
  | IndexError => "list index out of range"
  | KeyError k => "'" +:+ k +:+ "'"
  | TypeError m => m
  | TimeoutError => ""
  | SearchFailure m => m
  | ProviderError m => m
  end.

Definition is_TimeoutError (e : py_exn) : bool :=
  match e with TimeoutError => true | _ => false end.

(** [except (json.JSONDecodeError, IndexError)]. *)
Definition is_parse_error (e : py_exn) : bool :=
  match e with JSONDecodeError | IndexError => true | _ => false end.

Inductive event : Type :=
| ELlmCall (prompt : string)                   (** [llm.invoke(prompt)] *)
| EAgentRun (prompt : string)                  (** [agent.invoke(...)] *)
| ESearch (query : string) (num_results : nat) (** [search(query, num_results)] submitted *)
| ESleep (ms : Z).                             (** [time.sleep], in milliseconds *)

Definition trace := list event.

Inductive outcome (A : Type) : Type :=
| Ret (a : A) (tr : trace)
| Raise (e : py_exn) (tr : trace)
| Diverge (tr : trace).
Arguments Ret {A}. Arguments Raise {A}. Arguments Diverge {A}.

Definition M (A : Type) : Type := trace -> outcome A.

Global Instance M_ret : MRet M := fun A a tr => Ret a tr.
Global Instance M_bind : MBind M := fun A B k m tr =>
  match m tr with
  | Ret a tr' => k a tr'
  | Raise e tr' => Raise e tr'
  | Diverge tr' => Diverge tr'
  end.

Definition raise {A} (e : py_exn) : M A := fun tr => Raise e tr.
Definition diverge {A} : M A := fun tr => Diverge tr.
Definition emit (e : event) : M unit := fun tr => Ret () (tr ++ [e]).
Definition sleep (ms : Z) : M unit := emit (ESleep ms).

(** [try: m except <catches> as e: handler(e)]. *)
Definition try_except {A} (m : M A) (catches : py_exn -> bool) (handler : py_exn -> M A) : M A :=
  fun tr =>
    match m tr with
    | Raise e tr' => if catches e then handler e tr' else Raise e tr'
    | o => o
    end.

(** [try: m finally: fin]. *)
Definition try_finally {A} (m : M A) (fin : M unit) : M A :=
  fun tr =>
    match m tr with
    | Ret a tr1 =>
        match fin tr1 with Ret _ tr2 => Ret a tr2 | Raise e tr2 => Raise e tr2 | Diverge tr2 => Diverge tr2 end
    | Raise e tr1 =>
        match fin tr1 with Ret _ tr2 => Raise e tr2 | Raise e' tr2 => Raise e' tr2 | Diverge tr2 => Diverge tr2 end
    | Diverge tr1 => Diverge tr1
    end.

(** [[f(x) for x in xs]], evaluated left to right. *)
Fixpoint map_M {A B} (f : A -> M B) (xs : list A) : M (list B) :=
  match xs with
  | [] => mret []
  | x :: xs' => y ← f x; ys ← map_M f xs'; mret (y :: ys)
  end.

(* ------------------------------------------------------------------ *)
(** ** External services *)

(** What the web search call does once submitted: it finishes after
    [duration] milliseconds with a list of URLs or with the exception it
    raises (any exception, a [TimeoutError] of its own included), or it
    never finishes. *)
Inductive search_result : Type :=
| SearchReturns (urls : list string)
| SearchRaises (e : py_exn).

Inductive search_call : Type :=
| Finishes (duration : Z) (r : search_result)
| Hangs.

(** The content of a model message: a string, or a list of parts, each a
    string or an object with an optional ["text"] field. *)
Inductive part : Type :=
| PStr (s : string)
| PObj (text : option string).

Inductive content : Type :=
| CStr (s : string)
| CParts (ps : list part).

(** The reply of the LLM provider (or of the agent run). *)
Inductive llm_reply : Type :=
| Replies (c : content)
| Fails (msg : string).

(** [future.result(timeout=10)] and [time.sleep(0.5)], in milliseconds. *)
Definition search_timeout : Z := 10000.
Definition rate_limit_delay : Z := 500.

(** A bibliography record: the dict built by [search_single_reference]. *)
Record ref_record : Type := mk_ref {
  reference : string;
  verified : json;
  search_urls : list string;
  notes : json
}.

Definition set_notes (r : ref_record) (n : json) : ref_record :=
  mk_ref (reference r) (verified r) (search_urls r) n.
Definition set_search_urls (r : ref_record) (u : list string) : ref_record :=
  mk_ref (reference r) (verified r) u (notes r).
Definition set_verified (r : ref_record) (v : json) : ref_record :=
  mk_ref (reference r) v (search_urls r) (notes r).

(* ------------------------------------------------------------------ *)
(** ** A JSON decoder for concrete runs

    A decoder for the fragment of JSON made of [null], [true], [false],
    integers, strings without escapes, arrays and objects; outside that
    fragment it answers [None].  On that fragment it agrees with
    [json.loads]; it is used to run the program on concrete inputs. *)

Definition dq_char : ascii := ascii_of_nat 34.

Definition json_ws (c : ascii) : bool :=
  let n := nat_of_ascii c in (n =? 32) || (n =? 9) || (n =? 10) || (n =? 13).

Definition is_digit (c : ascii) : bool :=
  let n := nat_of_ascii c in (48 <=? n) && (n <=? 57).

Fixpoint skip_ws (s : list ascii) : list ascii :=
  match s with
  | c :: s' => if json_ws c then skip_ws s' else s
  | [] => []
  end.

Fixpoint digits_value (s : list ascii) (acc : Z) : Z * list ascii :=
  match s with
  | c :: s' =>
      if is_digit c then digits_value s' (acc * 10 + Z.of_nat (nat_of_ascii c - 48))%Z
      else (acc, s)
  | [] => (acc, [])
  end.

(** An unsigned integer: a single [0] or a non-zero digit and digits. *)
Definition parse_uint (s : list ascii) : option (Z * list ascii) :=
  match s with
  | c :: s' =>
      if Ascii.eqb c "0"%char then Some (0%Z, s')
      else if is_digit c then Some (digits_value s 0%Z) else None
  | [] => None
  end.

(** The body of a string literal after its opening quote. *)
Fixpoint string_body (s : list ascii) (acc : list ascii) : option (string * list ascii) :=
  match s with
  | [] => None
  | c :: s' =>
      if Ascii.eqb c dq_char then Some (String.string_of_list_ascii (rev acc), s')
      else if Ascii.eqb c "\"%char || (nat_of_ascii c <? 32) then None
      else string_body s' (c :: acc)
  end.

Fixpoint match_word (w : list ascii) (s : list ascii) : option (list ascii) :=
  match w, s with
  | [], _ => Some s
  | c :: w', d :: s' => if Ascii.eqb c d then match_word w' s' else None
  | _ :: _, [] => None
  end.

Fixpoint parse_value (fuel : nat) (s : list ascii) {struct fuel} : option (json * list ascii) :=
  match fuel with
  | O => None
  | S f =>
      match skip_ws s with
      | [] => None
      | c :: r =>
          if Ascii.eqb c "["%char then
            match skip_ws r with
            | d :: r' => if Ascii.eqb d "]"%char then Some (JArr [], r') else parse_items f r []
            | [] => None
            end
          else if Ascii.eqb c "{"%char then
            match skip_ws r with
            | d :: r' => if Ascii.eqb d "}"%char then Some (JObj [], r') else parse_fields f r []
            | [] => None
            end
          else if Ascii.eqb c dq_char then
            match string_body r [] with Some (str, r') => Some (JStr str, r') | None => None end
          else if Ascii.eqb c "-"%char then
            match parse_uint r with Some (z, r') => Some (JInt (- z)%Z, r') | None => None end
          else if is_digit c then
            match parse_uint (c :: r) with Some (z, r') => Some (JInt z, r') | None => None end
          else
            match match_word (String.list_ascii_of_string "null") (c :: r) with
            | Some r' => Some (JNull, r')
            | None =>
              match match_word (String.list_ascii_of_string "true") (c :: r) with
              | Some r' => Some (JBool true, r')
              | None =>
                match match_word (String.list_ascii_of_string "false") (c :: r) with
                | Some r' => Some (JBool false, r')
                | None => None
                end
              end
            end
      end
  end
with parse_items (fuel : nat) (s : list ascii) (acc : list json) {struct fuel}
    : option (json * list ascii) :=
  match fuel with
  | O => None
  | S f =>
      match parse_value f s with
      | None => None
      | Some (v, r) =>
          match skip_ws r with
          | c :: r' =>
              if Ascii.eqb c ","%char then parse_items f r' (v :: acc)
              else if Ascii.eqb c "]"%char then Some (JArr (rev (v :: acc)), r')
              else None
          | [] => None
          end
      end
  end
with parse_fields (fuel : nat) (s : list ascii) (acc : list (string * json)) {struct fuel}
    : option (json * list ascii) :=
  match fuel with
  | O => None
  | S f =>
      match skip_ws s with
      | c :: r =>
          if Ascii.eqb c dq_char then
            match string_body r [] with
            | Some (k, r1) =>
                match skip_ws r1 with
                | d :: r2 =>
                    if Ascii.eqb d ":"%char then
                      match parse_value f r2 with
                      | Some (v, r3) =>
                          match skip_ws r3 with
                          | e :: r4 =>
                              if Ascii.eqb e ","%char then parse_fields f r4 ((k, v) :: acc)
                              else if Ascii.eqb e "}"%char then Some (JObj (rev ((k, v) :: acc)), r4)
                              else None
                          | [] => None
                          end
                      | None => None
                      end
                    else None
                | [] => None
                end
            | None => None
            end
          else None
      | [] => None
      end
  end.

Definition json_loads_fragment (s : string) : option json :=
  let cs := String.list_ascii_of_string s in
  match parse_value (S (length cs)) cs with
  | Some (v, r) => match skip_ws r with [] => Some v | _ => None end
  | None => None
  end.

(* ------------------------------------------------------------------ *)
(** ** Concrete behaviours of the external services *)

(** A search that never finishes. *)
Definition search_hangs : trace -> string -> nat -> search_call := fun _ _ _ => Hangs.
(** A search that answers one URL after 0.3 seconds. *)
Definition search_fast : trace -> string -> nat -> search_call :=
  fun _ _ _ => Finishes 300 (SearchReturns ["https://example.org/a"]).
(** A model that always replies with the same text. *)
Definition fixed_reply (text : string) : trace -> string -> llm_reply :=
  fun _ _ => Replies (CStr text).

(** Two searched references and a verdict for the first one. *)
Definition demo_records : list ref_record :=
  [mk_ref "Smith (2020)" (JBool false) ["https://example.org/a"] (JStr "Found 1 search results.");
   mk_ref "Doe (1999)" (JBool false) ["https://example.org/b"] (JStr "Found 1 search results.")].
Definition demo_verdicts : string :=
  quotes "[{^reference^: ^Smith (2020)^, ^verified^: true, ^notes^: ^Publisher page matches.^}]".

(** The decoded [demo_verdicts]. *)
Definition demo_items : list json :=
  [JObj [("reference", JStr "Smith (2020)"); ("verified", JBool true);
         ("notes", JStr "Publisher page matches.")]].
(** A model that lists the two references when asked to extract and
    answers [demo_verdicts] when asked to verify. *)
Definition demo_model : trace -> string -> llm_reply :=
  fun _ prompt =>
    if String.prefix "You are verifying" prompt then Replies (CStr demo_verdicts)
    else Replies (CStr (quotes "[^Smith (2020)^, ^Doe (1999)^]")).

(** [str.isprintable()] on the code points up to U+00FF, where the C1
    controls, the no-break space and the soft hyphen are not printable;
    every code point above is taken as printable. *)
Definition isprintable_latin1 (cp : Z) : bool := negb ((cp <=? 160)%Z || (cp =? 173)%Z).

Section Program.

(** [list(search(query, num_results=3, lang="en"))], run in the worker. *)
Variable web_search : trace -> string -> nat -> search_call.
(** The Gemini model behind [_invoke_llm]. *)
Variable llm : trace -> string -> llm_reply.
(** The react agent built by [create_grading_agent], returning the content of
    its final message. *)
Variable agent : trace -> string -> llm_reply.
(** [json.loads]; [None] stands for [JSONDecodeError]. *)
Variable json_loads : string -> option json.

(* ------------------------------------------------------------------ *)
(** ** The search call under [ThreadPoolExecutor(max_workers=1)] *)

(** [executor.submit(lambda: list(search(reference, num_results=3, lang="en")))] *)
Definition submit_search (reference : string) : M search_call :=
  fun tr => Ret (web_search tr reference 3) (tr ++ [ESearch reference 3]).

(** [future.result(timeout)]: the value or exception of the task if it is
    done in time, [TimeoutError] otherwise. *)
Definition future_result (f : search_call) (timeout : Z) : M (list string) :=
  match f with
  | Finishes d (SearchReturns urls) => if (d <=? timeout)%Z then mret urls else raise TimeoutError
  | Finishes d (SearchRaises e) =>
      if (d <=? timeout)%Z then raise e else raise TimeoutError
  | Hangs => raise TimeoutError
  end.

(** Leaving the [with] block calls [executor.shutdown(wait=True)], which
    joins the worker thread. *)
Definition executor_exit (f : search_call) : M unit :=
  match f with
  | Finishes _ _ => mret ()
  | Hangs => diverge
  end.

(** [with ThreadPoolExecutor(max_workers=1) as executor:
         future = executor.submit(...); body(future)] *)
Definition with_search_executor {A} (reference : string) (body : search_call -> M A) : M A :=
  f ← submit_search reference; try_finally (body f) (executor_exit f).

(** [bibliography.search_single_reference].  The body of the [with] block
    either returns early ([inl]) or yields [urls] ([inr]). *)
Definition search_single_reference (reference : string) : M ref_record :=
  let result := mk_ref reference (JBool false) [] (JStr "") in
  try_except
    (r ← with_search_executor reference (fun future =>
           try_except
             (urls ← future_result future search_timeout; mret (inr urls))
             is_TimeoutError
             (fun _ => mret (inl (set_notes result (JStr "Search timed out.")))));
     match r with
     | inl early => mret early
     | inr urls =>
         sleep rate_limit_delay;;
         let result := set_search_urls result urls in
         match urls with
         | [] => mret (set_notes result (JStr "No search results found. Reference may not exist."))
         | _ => mret (set_notes result
                        (JStr ("Found " +:+ str_nat (length urls) +:+ " search results.")))
         end
     end)
    (fun _ => true)
    (fun e => mret (set_notes result (JStr ("Search failed: " +:+ py_exn_str e)))).

(** The numbered URL lines of the tool's summary. *)
Fixpoint numbered_urls (i : nat) (urls : list string) : string :=
  match urls with
  | [] => ""
  | u :: us => "  " +:+ str_nat i +:+ ". " +:+ u +:+ nl +:+ numbered_urls (S i) us
  end.

(** [tools.search_reference], the agent's tool. *)
Definition search_reference (reference : string) : M string :=
  try_except
    (r ← with_search_executor reference (fun future =>
           try_except
             (results ← future_result future search_timeout; mret (inr results))
             is_TimeoutError
             (fun _ => mret (inl ("Search timed out for '" +:+ reference +:+
                                  "'. Could not verify this reference."))));
     match r with
     | inl early => mret early
     | inr results =>
         sleep rate_limit_delay;;
         match results with
         | [] => mret ("NO RESULTS FOUND for: '" +:+ reference +:+ "'. " +:+
                       "This reference may not exist or may be incorrectly cited.")
         | _ => mret ("Search results for: '" +:+ reference +:+ "':" +:+ nl +:+
                      numbered_urls 1 results +:+
                      nl +:+ "Based on these results, assess whether the reference is real " +:+
                      "and correctly cited (authors, year, title, journal).")
         end
     end)
    (fun _ => true)
    (fun e => mret ("Search failed for '" +:+ reference +:+ "': " +:+ py_exn_str e +:+
                    ". Could not verify this reference.")).

(* ------------------------------------------------------------------ *)
(** ** Model calls and the Structured-Response Parser *)

(** [part if isinstance(part, str) else part.get("text", "")]. *)
Definition part_text (p : part) : string :=
  match p with
  | PStr s => s
  | PObj (Some t) => t
  | PObj None => ""
  end.

(** A list of parts is flattened by ["\n".join(...)]. *)
Definition flatten_content (c : content) : string :=
  match c with
  | CStr s => s
  | CParts ps => String.concat nl (map part_text ps)
  end.

(** [bibliography._invoke_llm]: one call to the model. *)
Definition invoke_llm (prompt : string) : M string :=
  fun tr =>
    match llm tr prompt with
    | Replies c => Ret (flatten_content c) (tr ++ [ELlmCall prompt])
    | Fails msg => Raise (ProviderError msg) (tr ++ [ELlmCall prompt])
    end.

(** [l[i]]. *)
Definition py_index {A} (l : list A) (i : nat) : M A :=
  match l !! i with Some x => mret x | None => raise IndexError end.

Definition fence_json : string := "```json".
Definition fence : string := "```".

(** The fence selection shared by [_parse_json_from_text] and [grade_essay]:
<<
    if "```json" in text:
        text = text.split("```json")[1].split("```")[0]
    elif "```" in text:
        text = text.split("```")[1].split("```")[0]
>> *)
Definition json_candidate (text : string) : M string :=
  if py_in fence_json text then
    piece ← py_index (py_split fence_json text) 1; py_index (py_split fence piece) 0
  else if py_in fence text then
    piece ← py_index (py_split fence text) 1; py_index (py_split fence piece) 0
  else mret text.

(** [json.loads(s)]. *)
Definition loads (s : string) : M json :=
  match json_loads s with Some v => mret v | None => raise JSONDecodeError end.

(** [bibliography._parse_json_from_text]. *)
Definition parse_json_from_text (text : string) : M json :=
  let text := py_strip text in
  candidate ← json_candidate text;
  loads (py_strip candidate).

(* ------------------------------------------------------------------ *)
(** ** Reference Extractor *)

(** [str.isprintable()] of one non-ASCII code point, as the Unicode
    database has it: false exactly for the categories Cc, Cf, Cs, Co, Cn,
    Zl, Zp and Zs. *)
Variable unicode_isprintable : Z -> bool.

(** One code point of [repr(s)] between the quotes [quote], given with the
    bytes that encode it. *)
Definition repr_char (quote cp : Z) (bytes : string) : string :=
  if (cp =? quote)%Z || (cp =? 92)%Z then "\" +:+ bytes
  else if (cp =? 9)%Z then "\t"
  else if (cp =? 10)%Z then "\n"
  else if (cp =? 13)%Z then "\r"
  else if (cp <? 32)%Z || (cp =? 127)%Z then "\x" +:+ hex_width 2 cp
  else if (cp <? 127)%Z then bytes
  else if unicode_isprintable cp then bytes
  else if (cp <=? 255)%Z then "\x" +:+ hex_width 2 cp
  else if (cp <=? 65535)%Z then "\u" +:+ hex_width 4 cp
  else "\U" +:+ hex_width 8 cp.

(** [repr(s)] of a [str]: between single quotes, or between double quotes
    when [s] has a single quote and no double quote. *)
Definition repr_str (s : string) : string :=
  let cs := utf8_chars s in
  let has cp := existsb (fun cb => (cb.1 =? cp)%Z) cs in
  let quote := if has 39%Z && negb (has 34%Z) then 34%Z else 39%Z in
  chr (Z.to_nat quote) +:+ String.concat "" (map (fun cb => repr_char quote cb.1 cb.2) cs) +:+
  chr (Z.to_nat quote).

(** [str(v)] of a decoded value, which is [repr(v)] but for a [str]. *)
Fixpoint py_repr (v : json) : string :=
  match v with
  | JNull => "None"
  | JBool true => "True"
  | JBool false => "False"
  | JInt z => str_Z z
  | JFloat r => r
  | JStr s => repr_str s
  | JArr items => "[" +:+ String.concat ", " (map py_repr items) +:+ "]"
  | JObj fields =>
      "{" +:+
      String.concat ", " (map (fun kv => repr_str kv.1 +:+ ": " +:+ kv.2)
                            (dict_items (map (fun kv => (kv.1, py_repr kv.2)) fields))) +:+
      "}"
  end.

Definition py_str (v : json) : string :=
  match v with JStr s => s | _ => py_repr v end.

Definition extract_prompt (essay_text : string) : string :=
  "Extract ALL bibliographic references from the following essay text. " +:+
  "Return ONLY a JSON array of strings, where each string is one full reference " +:+
  "exactly as it appears in the essay. If there are no references, return an empty array []." +:+
  nl +:+ nl +:+ "Essay text:" +:+ nl +:+ essay_text.

(** [bibliography.extract_references_with_llm]. *)
Definition extract_references_with_llm (essay_text : string) : M (list string) :=
  content ← invoke_llm (extract_prompt essay_text);
  try_except
    (refs ← parse_json_from_text content;
     match refs with
     | JArr items => mret (map py_str items)
     | _ => mret []
     end)
    is_parse_error
    (fun _ => mret []).

(* ------------------------------------------------------------------ *)
(** ** [json.dumps(ref_details, indent=2)] *)

(** One code point of a string literal under [ensure_ascii=True], given
    with the bytes that encode it: the short escapes, printable ASCII as
    is, [\uXXXX] below U+10000 and a surrogate pair above. *)
Definition json_escape_char (cp : Z) (bytes : string) : string :=
  if (cp =? 34)%Z then "\" +:+ dq
  else if (cp =? 92)%Z then "\\"
  else if (cp =? 10)%Z then "\n"
  else if (cp =? 13)%Z then "\r"
  else if (cp =? 9)%Z then "\t"
  else if (cp =? 8)%Z then "\b"
  else if (cp =? 12)%Z then "\f"
  else if (32 <=? cp)%Z && (cp <=? 126)%Z then bytes
  else if (cp <=? 65535)%Z then "\u" +:+ hex_width 4 cp
  else let v := (cp - 65536)%Z in
       "\u" +:+ hex_width 4 (55296 + v / 1024)%Z +:+ "\u" +:+ hex_width 4 (56320 + v mod 1024)%Z.

Definition json_escape (s : string) : string :=
  String.concat "" (map (fun cb => json_escape_char cb.1 cb.2) (utf8_chars s)).

Definition json_quote (s : string) : string := dq +:+ json_escape s +:+ dq.

Fixpoint spaces (n : nat) : string :=
  match n with O => "" | S n' => " " +:+ spaces n' end.

(** [float.__repr__] as [json.dumps] writes it: the special values get
    their JavaScript names. *)
Definition json_float (r : string) : string :=
  if String.eqb r "nan" then "NaN"
  else if String.eqb r "inf" then "Infinity"
  else if String.eqb r "-inf" then "-Infinity"
  else r.

(** [json.dumps(v, indent=2)] of a value nested at depth [ind / 2]. *)
Fixpoint dumps_at (ind : nat) (v : json) : string :=
  match v with
  | JNull => "null"
  | JBool true => "true"
  | JBool false => "false"
  | JInt z => str_Z z
  | JFloat r => json_float r
  | JStr s => json_quote s
  | JArr [] => "[]"
  | JArr items =>
      "[" +:+ nl +:+
      String.concat ("," +:+ nl) (map (fun x => spaces (ind + 2) +:+ dumps_at (ind + 2) x) items) +:+
      nl +:+ spaces ind +:+ "]"
  | JObj [] => "{}"
  | JObj fields =>
      "{" +:+ nl +:+
      String.concat ("," +:+ nl)
        (map (fun kv => spaces (ind + 2) +:+ json_quote kv.1 +:+ ": " +:+ kv.2)
           (dict_items (map (fun kv => (kv.1, dumps_at (ind + 2) kv.2)) fields))) +:+
      nl +:+ spaces ind +:+ "}"
  end.

Definition json_dumps_indent2 (v : json) : string := dumps_at 0 v.

(* ------------------------------------------------------------------ *)
(** ** Reference Verifier *)

(** [{"reference": ..., "search_urls": ..., "search_notes": ...}] *)
Definition ref_detail (r : ref_record) : json :=
  JObj [("reference", JStr (reference r));
        ("search_urls", JArr (map JStr (search_urls r)));
        ("search_notes", notes r)].

Definition verify_prompt (references : list ref_record) : string :=
  "You are verifying bibliographic references. For each reference below, " +:+
  "I provide the Google search result URLs. Assess whether the reference " +:+
  "is likely REAL and correctly cited (correct authors, year, title, journal/publisher). " +:+
  "Be skeptical â€” if the URLs don't clearly confirm the reference, mark it unverified." +:+ nl +:+ nl +:+
  "References:" +:+ nl +:+ json_dumps_indent2 (JArr (map ref_detail references)) +:+ nl +:+ nl +:+
  "Respond with a JSON array where each element has:" +:+ nl +:+
  quotes "  {^reference^: ^...^, ^verified^: true/false, ^notes^: ^explanation^}" +:+ nl +:+
  "Return ONLY the JSON array.".

(** [r["reference"]] on an element of the reply, returning the element (a
    dict) and the key. *)
Definition verdict_key (r : json) : M (list (string * json) * json) :=
  match r with
  | JObj fields =>
      match obj_get fields "reference" with
      | Some k => mret (fields, k)
      | None => raise (KeyError "reference")
      end
  | JArr _ => raise (TypeError "list indices must be integers or slices, not str")
  | JStr _ => raise (TypeError "string indices must be integers, not 'str'")
  | _ => raise (TypeError ("'" +:+ type_name r +:+ "' object is not subscriptable"))
  end.

(** [llm_map = {r["reference"]: r for r in llm_results}].  The dict is kept
    restricted to its [str] keys: only those can equal a reference string;
    keys of other hashable types are computed and then never matched. *)
Fixpoint build_llm_map (items : list json) (m : gmap string (list (string * json)))
    : M (gmap string (list (string * json))) :=
  match items with
  | [] => mret m
  | r :: rest =>
      '(fields, key) ← verdict_key r;
      if hashable key then
        build_llm_map rest (match key with JStr k => <[k := fields]> m | _ => m end)
      else raise (TypeError "unhashable type")
  end.

(** The body of [for ref in references: if ref["reference"] in llm_map: ...]. *)
Definition merge_verdict (llm_map : gmap string (list (string * json))) (ref : ref_record) : ref_record :=
  match llm_map !! reference ref with
  | Some llm_ref =>
      let ref := set_verified ref (obj_get_default llm_ref "verified" (JBool false)) in
      set_notes ref (obj_get_default llm_ref "notes" (notes ref))
  | None => ref
  end.

Definition parse_failure_marker : string := " (LLM verification failed to parse)".

(** [ref["notes"] += " (LLM verification failed to parse)"]: a [str] gets
    the marker appended, a [list] is extended by the characters of the
    marker, and any other value raises [TypeError]. *)
Definition append_parse_marker (ref : ref_record) : M ref_record :=
  match notes ref with
  | JStr s => mret (set_notes ref (JStr (s +:+ parse_failure_marker)))
  | JArr items =>
      mret (set_notes ref (JArr (items ++ map (fun cb => JStr cb.2) (utf8_chars parse_failure_marker))))
  | v => raise (TypeError ("unsupported operand type(s) for +=: '" +:+ type_name v +:+ "' and 'str'"))
  end.

(** [r.get("search_urls")] is truthy. *)
Definition has_urls (r : ref_record) : bool :=
  match search_urls r with [] => false | _ => true end.

(** [bibliography.verify_references_with_llm].  The records are updated in
    place and the same list is returned; the model returns the updated
    list. *)
Definition verify_references_with_llm (references : list ref_record) : M (list ref_record) :=
  match filter (fun r => has_urls r = true) references with
  | [] => mret references
  | _ =>
      content ← invoke_llm (verify_prompt references);
      try_except
        (llm_results ← parse_json_from_text content;
         match llm_results with
         | JArr items =>
             llm_map ← build_llm_map items ∅;
             mret (map (merge_verdict llm_map) references)
         | _ => mret references
         end)
        is_parse_error
        (fun _ => map_M append_parse_marker references)
  end.

(* ------------------------------------------------------------------ *)
(** ** Bibliography Pipeline *)

(** [bibliography.verify_bibliography]. *)
Definition verify_bibliography (essay_text : string) : M (list ref_record) :=
  ref_strings ← extract_references_with_llm essay_text;
  match ref_strings with
  | [] => mret []
  | _ =>
      search_results ← map_M search_single_reference ref_strings;
      verify_references_with_llm search_results
  end.

(* ------------------------------------------------------------------ *)
(** ** Grading Agent *)

(** [GRADING_PROMPT.format(criteria_text=..., essay_text=...)]. *)
Definition grading_prompt (criteria_text essay_text : string) : string :=
  "You are grading a student's essay. Below are the grading criteria and the essay text.

## GRADING CRITERIA
" +:+ criteria_text +:+ "

## STUDENT ESSAY
" +:+ essay_text +:+ quotes "

## INSTRUCTIONS
1. Carefully read the grading criteria and the essay.
2. For EACH criterion listed above, provide:
   - A score (out of the maximum points for that criterion, or out of 10 if no max is specified)
   - Detailed, specific feedback explaining your score. Reference exact passages from the essay.
   - Concrete suggestions for improvement.
3. After evaluating all criteria, extract ALL bibliographic references from the essay.
4. For each reference, use the search_reference tool to verify it exists and is correctly cited.
5. Finally, provide an overall summary with:
   - Total score
   - Key strengths (be specific)
   - Key weaknesses (be specific)
   - Top 3 priority improvements the student should focus on

You MUST respond with valid JSON in the following format:
{
  ^criteria_results^: [
    {
      ^criterion_name^: ^Name of the criterion^,
      ^score^: <number>,
      ^max_score^: <number>,
      ^feedback^: ^Detailed feedback...^,
      ^suggestions^: ^How to improve...^
    }
  ],
  ^bibliography^: [
    {
      ^reference^: ^Full reference text as cited in the essay^,
      ^verified^: true/false,
      ^notes^: ^Verification details — does it exist? Are authors/year/title correct?^
    }
  ],
  ^total_score^: <number>,
  ^max_total_score^: <number>,
  ^overall_feedback^: ^Summary of key strengths and weaknesses...^,
  ^priority_improvements^: [^improvement 1^, ^improvement 2^, ^improvement 3^]
}

Be critical. Be thorough. Be fair. Do NOT inflate scores.".

(** [agent.invoke({"messages": [("user", prompt)]}, config={"recursion_limit": 30})]
    followed by [result["messages"][-1].content]. *)
Definition run_agent (prompt : string) : M content :=
  fun tr =>
    match agent tr prompt with
    | Replies c => Ret c (tr ++ [EAgentRun prompt])
    | Fails msg => Raise (ProviderError msg) (tr ++ [EAgentRun prompt])
    end.

(** [{"raw_response": final_message, "parse_error": True}]. *)
Definition raw_envelope (final_message : string) : json :=
  JObj [("raw_response", JStr final_message); ("parse_error", JBool true)].

(** The [try]/[except] of [grade_essay]. *)
Definition grade_from_message (final_message : string) : M json :=
  try_except
    (text ← json_candidate final_message; loads (py_strip text))
    is_parse_error
    (fun _ => mret (raw_envelope final_message)).

(** [agent.grade_essay]. *)
Definition grade_essay (criteria_text essay_text : string) : M json :=
  final ← run_agent (grading_prompt criteria_text essay_text);
  grade_from_message (flatten_content final).

(* ------------------------------------------------------------------ *)
(** ** Text extraction *)

(** [tools.extract_pdf_text], given the results of [page.extract_text()]
    for the pages of [PdfReader(pdf_file).pages], in order: the non-empty
    texts are kept and joined with ["\n\n"]. *)
Definition extract_pdf_text (page_texts : list string) : string :=
  String.concat (nl +:+ nl) (filter (fun t => t <> "") page_texts).

(** [ "\n\n".join(p.extract_text() or "" for p in reader.pages) ], the essay
    text read by the [__main__] block of [bibliography.py] and by the
    [essay_text] fixture of [test_bibliography.py]; empty pages are kept. *)
Definition join_page_texts (page_texts : list string) : string :=
  String.concat (nl +:+ nl) page_texts.

(* ------------------------------------------------------------------ *)
(** ** The Streamlit app ([app.py])

    One run of the script, for given values of its widgets.  The widgets
    themselves ([st.radio], [st.text_area], [st.file_uploader],
    [st.button]) and the transient [st.spinner] are not recorded on the
    screen; [st.stop()] ends the run. *)

(** An uploaded file: its name, the texts of the pages [PdfReader] finds in
    it ([None] when [PdfReader] raises on its content), and its content
    decoded by [read().decode("utf-8", errors="replace")]. *)
Record upload : Type := mk_upload {
  upload_name : string;
  upload_pages : option (list string);
  upload_decoded : string
}.

(** The values of the widgets. *)
Record app_inputs : Type := mk_inputs {
  criteria_mode : string;           (** [st.radio]: "Paste text" or "Upload file" *)
  criteria_text_area : string;      (** [st.text_area] of the paste mode *)
  criteria_upload : option upload;  (** [st.file_uploader(key="criteria")] of the upload mode *)
  essay_upload : option upload;     (** [st.file_uploader(key="essay")] *)
  grade_clicked : bool              (** [st.button("Grade Essay")] *)
}.

(** The elements written on the page. *)
Inductive ui : Type :=
| UTitle (s : string)
| UMarkdown (s : string)
| USubheader (s : string)
| UHeader (s : string)
| UInfo (s : string)
| UError (s : string)
| UWarning (s : string)
| UCaption (s : string)
| UDivider
| UExpander (label : string) (body : list ui)
| UMarkdownValue (v : json)  (** [st.markdown] of a decoded value *)
| UInfoValue (v : json).     (** [st.info] of a decoded value *)

Inductive app_exn : Type :=
| AppPy (e : py_exn)            (** raised by [grade_essay] *)
| PdfReadError                  (** raised by [PdfReader] *)
| AttributeError (msg : string).

Inductive app_outcome (A : Type) : Type :=
| AOk (a : A) (tr : trace) (screen : list ui)
| AStop (tr : trace) (screen : list ui)
| ARaise (e : app_exn) (tr : trace) (screen : list ui)
| ADiverge (tr : trace) (screen : list ui).
Arguments AOk {A}. Arguments AStop {A}. Arguments ARaise {A}. Arguments ADiverge {A}.

(** A step of the script: it extends the trace of external calls and the
    screen. *)
Definition AppM (A : Type) : Type := trace -> list ui -> app_outcome A.

Global Instance AppM_ret : MRet AppM := fun A a tr s => AOk a tr s.
Global Instance AppM_bind : MBind AppM := fun A B k m tr s =>
  match m tr s with
  | AOk a tr' s' => k a tr' s'
  | AStop tr' s' => AStop tr' s'
  | ARaise e tr' s' => ARaise e tr' s'
  | ADiverge tr' s' => ADiverge tr' s'
  end.

Definition show (u : ui) : AppM unit := fun tr s => AOk () tr (s ++ [u]).
Definition st_stop {A} : AppM A := fun tr s => AStop tr s.
Definition app_raise {A} (e : app_exn) : AppM A := fun tr s => ARaise e tr s.

(** A call of the pipeline's code from the script. *)
Definition lift_M {A} (m : M A) : AppM A :=
  fun tr s =>
    match m tr with
    | Ret a tr' => AOk a tr' s
    | Raise e tr' => ARaise (AppPy e) tr' s
    | Diverge tr' => ADiverge tr' s
    end.

(** [str.lower()] on the letters [A]-[Z], other bytes kept.  Python also
    lowers non-ASCII letters, but the only ASCII letters it produces from
    them are [i] and [k], so [.endswith(".pdf")] after it is decided the
    same way. *)
Definition ascii_lower (c : ascii) : ascii :=
  let n := nat_of_ascii c in
  if (65 <=? n) && (n <=? 90) then ascii_of_nat (n + 32) else c.

Fixpoint py_lower (s : string) : string :=
  match s with
  | String.EmptyString => String.EmptyString
  | String.String c s' => String.String (ascii_lower c) (py_lower s')
  end.

(** [s.endswith(suffix)]. *)
Definition py_endswith (suffix s : string) : bool :=
  (String.length suffix <=? String.length s) &&
  String.eqb (py_drop (String.length s - String.length suffix) s) suffix.

(** [tools.extract_text_from_file]. *)
Definition extract_text_from_file (uploaded_file : upload) : AppM string :=
  if py_endswith ".pdf" (py_lower (upload_name uploaded_file)) then
    match upload_pages uploaded_file with
    | Some page_texts => mret (extract_pdf_text page_texts)
    | None => app_raise PdfReadError
    end
  else mret (upload_decoded uploaded_file).

(** [criteria_text_input] and [criteria_file] after the criteria column. *)
Definition criteria_input (inp : app_inputs) : option string :=
  if String.eqb (criteria_mode inp) "Paste text" then Some (criteria_text_area inp) else None.
Definition criteria_file (inp : app_inputs) : option upload :=
  if String.eqb (criteria_mode inp) "Paste text" then None else criteria_upload inp.

(** [criteria_text_input and criteria_text_input.strip()]. *)
Definition pasted_criteria (inp : app_inputs) : bool :=
  match criteria_input inp with
  | Some t => negb (String.eqb (py_strip t) "")
  | None => false
  end.

(** [has_criteria and essay_file]. *)
Definition app_ready (inp : app_inputs) : bool :=
  (pasted_criteria inp || match criteria_file inp with Some _ => true | None => false end) &&
  match essay_upload inp with Some _ => true | None => false end.

(** [extract_text_from_file(f)] on a widget value, [None] included. *)
Definition file_text (f : option upload) : AppM string :=
  match f with
  | Some u => extract_text_from_file u
  | None => app_raise (AttributeError "'NoneType' object has no attribute 'name'")
  end.

(** Lines 50-61: the criteria and essay texts, checked for blankness. *)
Definition app_grading_texts (inp : app_inputs) : AppM (string * string) :=
  criteria_text ← (match criteria_input inp with
                   | Some t =>
                       if negb (String.eqb (py_strip t) "") then mret (py_strip t)
                       else file_text (criteria_file inp)
                   | None => file_text (criteria_file inp)
                   end);
  essay_text ← file_text (essay_upload inp);
  (if String.eqb (py_strip criteria_text) "" then
     show (UError "Could not extract text from the criteria. Please check your input.");; st_stop
   else mret ());;
  (if String.eqb (py_strip essay_text) "" then
     show (UError "Could not extract text from the essay file. Please check the file.");; st_stop
   else mret ());;
  mret (criteria_text, essay_text).

(** [int(time.time() - start_time)] once the grading has produced the
    given trace. *)
Variable elapsed_secs : trace -> nat.

(** The elements written by lines 77-126 for a structured result without a
    truthy ["parse_error"], and the exception they raise, if any. *)
Variable render_result : list (string * json) -> list ui * option app_exn.

Definition elapsed_now : AppM nat := fun tr s => AOk (elapsed_secs tr) tr s.

(** [minutes, seconds = divmod(int(elapsed), 60)] and the caption. *)
Definition grading_caption (n : nat) : string :=
  let minutes := n / 60 in
  let seconds := n mod 60 in
  if 0 <? minutes then "Grading completed in " +:+ str_nat minutes +:+ "m " +:+ str_nat seconds +:+ "s"
  else "Grading completed in " +:+ str_nat seconds +:+ "s".

(** Python truthiness of a decoded value. *)
Definition py_truthy (v : json) : bool :=
  match v with
  | JNull => false
  | JBool b => b
  | JInt z => negb (z =? 0)%Z
  | JFloat r => negb (String.eqb r "0.0" || String.eqb r "-0.0")
  | JStr s => negb (String.eqb s "")
  | JArr items => match items with [] => false | _ => true end
  | JObj fields => match fields with [] => false | _ => true end
  end.


Definition show_rendered (r : list ui * option app_exn) : AppM unit :=
  fun tr s =>
    match r.2 with
    | None => AOk () tr (s ++ r.1)
    | Some e => ARaise e tr (s ++ r.1)
    end.

(** Lines 72-126: the raw output of an unstructured reply, or the result. *)
Definition app_show_result (result : json) : AppM unit :=
  match result with
  | JObj fields =>
      if py_truthy (obj_get_default fields "parse_error" JNull) then
        show (UWarning "The agent returned a non-structured response. Showing raw output:");;
        show (UMarkdownValue (obj_get_default fields "raw_response" (JStr "No response")));;
        st_stop
      else show_rendered (render_result fields)
  | _ => app_raise (AttributeError ("'" +:+ type_name result +:+ "' object has no attribute 'get'"))
  end.

(** The body of [if st.button("Grade Essay", ...)]. *)
Definition app_grade (inp : app_inputs) : AppM unit :=
  '(criteria_text, essay_text) ← app_grading_texts inp;
  result ← lift_M (grade_essay criteria_text essay_text);
  n ← elapsed_now;
  show (UCaption (grading_caption n));;
  app_show_result result.

(** One run of [app.py]. *)
Definition app_main (inp : app_inputs) : AppM unit :=
  show (UTitle "Essay Grading Agent");;
  show (UMarkdown "Upload your grading criteria and a student essay to receive detailed, rigorous feedback.");;
  show (USubheader "Grading Criteria");;
  show (USubheader "Student Essay");;
  if app_ready inp then
    (if grade_clicked inp then app_grade inp else mret ())
  else show (UInfo "Please provide grading criteria (paste or upload) and upload a student essay to begin.").

(* ------------------------------------------------------------------ *)
(** ** The command line ([if __name__ == "__main__"] of [bibliography.py]) *)

(** How a run of the command line ends early: [sys.exit(code)], an
    exception of the pipeline or of [sys.argv[2]], or [PdfReader] raising. *)
Inductive cli_end : Type :=
| CliExit (code : Z)
| CliError (e : py_exn)
| CliPdfError.

Inductive cli_outcome (A : Type) : Type :=
| COk (a : A) (tr : trace) (out : list string)
| CEnd (e : cli_end) (tr : trace) (out : list string)
| CDiverge (tr : trace) (out : list string).
Arguments COk {A}. Arguments CEnd {A}. Arguments CDiverge {A}.

(** A step of the script: it extends the trace and the printed lines (the
    argument of each [print] call). *)
Definition CliM (A : Type) : Type := trace -> list string -> cli_outcome A.

Global Instance CliM_ret : MRet CliM := fun A a tr out => COk a tr out.
Global Instance CliM_bind : MBind CliM := fun A B k m tr out =>
  match m tr out with
  | COk a tr' out' => k a tr' out'
  | CEnd e tr' out' => CEnd e tr' out'
  | CDiverge tr' out' => CDiverge tr' out'
  end.

Definition cli_print (s : string) : CliM unit := fun tr out => COk () tr (out ++ [s]).
Definition cli_stop {A} (e : cli_end) : CliM A := fun tr out => CEnd e tr out.

Definition cli_lift {A} (m : M A) : CliM A :=
  fun tr out =>
    match m tr with
    | Ret a tr' => COk a tr' out
    | Raise e tr' => CEnd (CliError e) tr' out
    | Diverge tr' => CDiverge tr' out
    end.

(** [PdfReader(pdf_path)]: the texts of the pages of the file at the path,
    [None] when it raises. *)
Variable read_pdf : string -> option (list string).

(** The dict of [search_single_reference], in its key order. *)
Definition record_json (r : ref_record) : json :=
  JObj [("reference", JStr (reference r)); ("verified", verified r);
        ("search_urls", JArr (map JStr (search_urls r))); ("notes", notes r)].

(** The printing loop of the essay mode. *)
Fixpoint print_records (rs : list ref_record) : CliM unit :=
  match rs with
  | [] => mret ()
  | r :: rs' =>
      cli_print ("[" +:+ (if py_truthy (verified r) then "VERIFIED" else "UNVERIFIED") +:+ "] " +:+
                 reference r);;
      cli_print ("  URLs: " +:+ py_repr (JArr (map JStr (search_urls r))));;
      cli_print ("  Notes: " +:+ py_str (notes r) +:+ nl);;
      print_records rs'
  end.

(** The [__main__] block for [sys.argv]; [len(sys.argv) < 2] is the case
    of a list without a second element. *)
Definition cli_main (argv : list string) : CliM unit :=
  match argv with
  | _ :: arg1 :: rest =>
      if String.eqb arg1 "--essay" then
        match rest with
        | [] => cli_stop (CliError IndexError)
        | pdf_path :: _ =>
            match read_pdf pdf_path with
            | None => cli_stop CliPdfError
            | Some page_texts =>
                let text := join_page_texts page_texts in
                cli_print ("Extracted " +:+ str_nat (py_len text) +:+ " characters from " +:+ pdf_path);;
                cli_print ("Running full bibliography verification pipeline..." +:+ nl);;
                results ← cli_lift (verify_bibliography text);
                match results with
                | [] => cli_print "No references found in the essay."
                | _ => print_records results
                end
            end
        end
      else
        let ref := String.concat " " (arg1 :: rest) in
        cli_print ("Searching for: " +:+ ref +:+ nl);;
        result ← cli_lift (search_single_reference ref);
        cli_print (json_dumps_indent2 (record_json result))
  | _ =>
      cli_print "Usage:";;
      cli_print "  python bibliography.py 'Author (2020). Title. Journal.'";;
      cli_print "  python bibliography.py --essay path/to/essay.pdf";;
      cli_stop (CliExit 1)
  end.

(* ------------------------------------------------------------------ *)
(** ** Notions used to state the properties *)

(** [sep] occurs in [s] at position [p]. *)
Definition occurs_at (sep s : string) (p : nat) : Prop :=
  forall k, k < String.length sep -> String.get (p + k) s = String.get k sep.



(** The verdict that [llm_map] keeps for the reference string [s]: the last
    element of the reply that is an object whose ["reference"] is [s]. *)
Definition verdict_step (s : string) (acc : option (list (string * json))) (v : json)
    : option (list (string * json)) :=
  match v with
  | JObj fields =>
      match obj_get fields "reference" with
      | Some (JStr k) => if String.eqb k s then Some fields else acc
      | _ => acc
      end
  | _ => acc
  end.

Definition verdict_for (items : list json) (s : string) : option (list (string * json)) :=
  fold_left (verdict_step s) items None.

(** An element of the verifier's reply that [llm_map] accepts: an object
    with a hashable ["reference"]. *)
Definition well_formed_verdict (v : json) : Prop :=
  exists fields key, v = JObj fields /\ obj_get fields "reference" = Some key /\ hashable key = true.

(** The queries of the search calls in a trace, in order. *)
Fixpoint search_queries (tr : trace) : list string :=
  match tr with
  | [] => []
  | ESearch q _ :: tr' => q :: search_queries tr'
  | _ :: tr' => search_queries tr'
  end.

(** [not s.strip()]: [s] is made of characters that [strip] removes. *)
Definition is_blank (s : string) : bool := forallb (fun cb => py_isspace cb.1) (utf8_chars s).

(** The trace of external calls at the end of a run of the app. *)
Definition app_final_trace {A} (o : app_outcome A) : trace :=
  match o with
  | AOk _ tr _ | AStop tr _ | ARaise _ tr _ | ADiverge tr _ => tr
  end.

(** The run ends (with a value, [st.stop()] or an exception). *)
Definition app_ends {A} (o : app_outcome A) : bool :=
  match o with ADiverge _ _ => false | _ => true end.

(** The lines printed for one record in the essay mode. *)
Definition record_lines (r : ref_record) : list string :=
  ["[" +:+ (if py_truthy (verified r) then "VERIFIED" else "UNVERIFIED") +:+ "] " +:+ reference r;
   "  URLs: " +:+ py_repr (JArr (map JStr (search_urls r)));
   "  Notes: " +:+ py_str (notes r) +:+ nl].

(** The usage printed by the command line. *)
Definition usage_lines : list string :=
  ["Usage:";
   "  python bibliography.py 'Author (2020). Title. Journal.'";
   "  python bibliography.py --essay path/to/essay.pdf"].

(** The trace at the end of a run of the command line. *)
Definition cli_final_trace {A} (o : cli_outcome A) : trace :=
  match o with COk _ tr _ | CEnd _ tr _ | CDiverge tr _ => tr end.

(* ================================================================== *)
(** * Properties *)

Ltac unfold_search :=
  unfold search_single_reference, search_reference, with_search_executor, submit_search,
    try_except, try_finally, future_result, executor_exit, sleep, emit, raise, diverge,
    mbind, M_bind, mret, M_ret.

(** ** Reference Searcher *)

(** C1 (code_bug).  What [search_single_reference] does for each behaviour
    of the search call: a call that finishes yields a record whose notes
    say "Search timed out." (finished after the 10 s timeout, or raised a
    [TimeoutError] of its own in time, which the inner handler catches),
    "Search failed: <cause>" (raised any other exception in time), "No
    search results found..." (no URLs) or "Found <n> search results."
    (n URLs); a call that never
    finishes makes [search_single_reference] itself never return, since
    leaving the [with] block waits for the worker. *)
Theorem search_single_reference_outcomes (query : string) (tr : trace) :
  match web_search tr query 3 with
  | Hangs => search_single_reference query tr = Diverge (tr ++ [ESearch query 3])
  | Finishes d r =>
      exists rec tr', search_single_reference query tr = Ret rec tr' /\
        reference rec = query /\ verified rec = JBool false /\
        if (d <=? search_timeout)%Z then
          match r with
          | SearchReturns [] =>
              search_urls rec = [] /\
              notes rec = JStr "No search results found. Reference may not exist."
          | SearchReturns urls =>
              search_urls rec = urls /\
              notes rec = JStr ("Found " +:+ str_nat (length urls) +:+ " search results.")
          | SearchRaises e =>
              search_urls rec = [] /\
              notes rec = JStr (if is_TimeoutError e then "Search timed out."
                                else "Search failed: " +:+ py_exn_str e)
          end
        else search_urls rec = [] /\ notes rec = JStr "Search timed out."
  end.
Proof.
  unfold_search.
  destruct (web_search tr query 3) as [d [urls|e]|]; [| |reflexivity];
    destruct (d <=? search_timeout)%Z; [destruct urls| | destruct e; simpl; eauto 10 |];
    simpl; eauto 10.
Qed.


(** ** Strings: occurrences, [str.find] and [str.split] *)

Lemma get_None_iff (s : string) (n : nat) : String.get n s = None <-> String.length s <= n.
Proof.
  revert n; induction s as [|c s IH]; intros [|n]; simpl; split; intros H;
    try lia; try discriminate; try reflexivity.
  - apply IH in H. lia.
  - apply IH. lia.
Qed.

Lemma prefix_get (s1 s2 : string) :
  String.prefix s1 s2 = true <-> (forall k, k < String.length s1 -> String.get k s2 = String.get k s1).
Proof.
  revert s2; induction s1 as [|a s1 IH]; intros [|b s2]; simpl.
  - split; intros; [lia|reflexivity].
  - split; intros; [lia|reflexivity].
  - split; [discriminate|]. intros H. specialize (H 0 ltac:(lia)). discriminate.
  - destruct (ascii_dec a b) as [->|Hne].
    + rewrite IH. split.
      * intros H [|k] Hk; [reflexivity|]. apply H. lia.
      * intros H k Hk. apply (H (S k)). lia.
    + split; [discriminate|]. intros H. specialize (H 0 ltac:(lia)). simpl in H. congruence.
Qed.

Lemma occurs_at_0 (sep s : string) : occurs_at sep s 0 <-> String.prefix sep s = true.
Proof. rewrite prefix_get. reflexivity. Qed.

Lemma occurs_at_S (sep s : string) (c : ascii) (p : nat) :
  occurs_at sep (String.String c s) (S p) <-> occurs_at sep s p.
Proof. reflexivity. Qed.

Lemma get_Some_lt (s : string) (n : nat) (c : ascii) :
  String.get n s = Some c -> n < String.length s.
Proof.
  intros H. destruct (Nat.lt_ge_cases n (String.length s)) as [|Hge]; [assumption|].
  apply get_None_iff in Hge. congruence.
Qed.

Lemma get_lt_Some (s : string) (n : nat) :
  n < String.length s -> exists c, String.get n s = Some c.
Proof.
  intros H. destruct (String.get n s) as [c|] eqn:E; [eauto|].
  apply get_None_iff in E. lia.
Qed.

Lemma occurs_at_bound (sep s : string) (p : nat) :
  sep <> String.EmptyString -> occurs_at sep s p -> p + String.length sep <= String.length s.
Proof.
  intros Hne H.
  assert (Hl : 0 < String.length sep) by (destruct sep; simpl; [congruence|lia]).
  destruct (get_lt_Some sep (String.length sep - 1)) as [c Hc]; [lia|].
  specialize (H (String.length sep - 1) ltac:(lia)). rewrite Hc in H.
  apply get_Some_lt in H. lia.
Qed.

Lemma index_first (sep s : string) :
  sep <> String.EmptyString ->
  match String.index 0 sep s with
  | Some j => occurs_at sep s j /\ forall p, p < j -> ~ occurs_at sep s p
  | None => forall p, ~ occurs_at sep s p
  end.
Proof.
  intros Hne. induction s as [|c s IH].
  - simpl. destruct sep as [|a sep]; [congruence|].
    intros p H. apply occurs_at_bound in H; [simpl in H; lia|congruence].
  - assert (Hcons : String.index 0 sep (String.String c s) =
              if String.prefix sep (String.String c s) then Some 0
              else match String.index 0 sep s with Some n => Some (S n) | None => None end)
      by reflexivity.
    rewrite Hcons. destruct (String.prefix sep (String.String c s)) eqn:Hp.
    + split; [apply occurs_at_0; exact Hp|]. intros p Hp'. lia.
    + destruct (String.index 0 sep s) as [j|].
      * destruct IH as [Hocc Hfirst]. split; [apply occurs_at_S; exact Hocc|].
        intros [|p] Hp' Hocc'.
        -- apply occurs_at_0 in Hocc'. congruence.
        -- apply occurs_at_S in Hocc'. apply (Hfirst p); [lia|exact Hocc'].
      * intros [|p] Hocc'.
        -- apply occurs_at_0 in Hocc'. congruence.
        -- apply occurs_at_S in Hocc'. exact (IH p Hocc').
Qed.

Lemma py_find_Some (sep s : string) (j : nat) :
  sep <> String.EmptyString -> py_find sep s = Some j ->
  occurs_at sep s j /\ forall p, p < j -> ~ occurs_at sep s p.
Proof. intros Hne H. pose proof (index_first sep s Hne) as Hi. unfold py_find in H. rewrite H in Hi. exact Hi. Qed.










Lemma fence_ne : fence <> String.EmptyString.
Proof. discriminate. Qed.

Lemma fence_json_ne : fence_json <> String.EmptyString.
Proof. discriminate. Qed.


Lemma py_split_fuel_head (f : nat) (sep s : string) :
  0 < f ->
  py_split_fuel f sep s !! 0 =
    Some (match py_find sep s with Some j => String.substring 0 j s | None => s end).
Proof. intros Hf. destruct f; [lia|]. simpl. destruct (py_find sep s); reflexivity. Qed.

Lemma py_split_head (sep s : string) :
  py_split sep s !! 0 =
    Some (match py_find sep s with Some j => String.substring 0 j s | None => s end).
Proof. apply py_split_fuel_head. lia. Qed.

Lemma py_split_second (sep s : string) (i : nat) :
  sep <> String.EmptyString -> py_find sep s = Some i ->
  py_split sep s !! 1 =
    Some (let rest := py_drop (i + String.length sep) s in
          match py_find sep rest with Some j => String.substring 0 j rest | None => rest end).
Proof.
  intros Hne H. pose proof (py_find_Some sep s i Hne H) as [Hocc _].
  apply occurs_at_bound in Hocc; [|exact Hne].
  assert (0 < String.length sep) by (destruct sep; simpl; [congruence|lia]).
  unfold py_split. cbn [py_split_fuel]. rewrite H.
  change ((?x :: ?l) !! 1) with (l !! 0). apply py_split_fuel_head. lia.
Qed.

(** ** Structured-Response Parser *)

Ltac unfold_M := unfold py_index, loads, raise, mbind, M_bind, mret, M_ret in *.





(** The fence selection never fails and does not touch the trace. *)
Lemma json_candidate_pure (text : string) :
  exists c, forall tr, json_candidate text tr = Ret c tr.
Proof.
  unfold json_candidate, py_in.
  destruct (py_find fence_json text) as [i|] eqn:Hi.
  - eexists. intros tr. unfold_M. rewrite (py_split_second _ _ i fence_json_ne Hi).
    cbv beta iota zeta. rewrite py_split_head. reflexivity.
  - destruct (py_find fence text) as [i|] eqn:Hi2.
    + eexists. intros tr. unfold_M. rewrite (py_split_second _ _ i fence_ne Hi2).
      cbv beta iota zeta. rewrite py_split_head. reflexivity.
    + exists text. reflexivity.
Qed.

(** [_parse_json_from_text] either returns the decoded candidate or raises
    [JSONDecodeError]; it records nothing in the trace. *)
Lemma parse_json_from_text_cases (text : string) :
  exists c, forall tr,
    parse_json_from_text text tr =
      match json_loads (py_strip c) with Some v => Ret v tr | None => Raise JSONDecodeError tr end.
Proof.
  destruct (json_candidate_pure (py_strip text)) as [c Hc]. exists c. intros tr.
  unfold parse_json_from_text. cbv zeta. unfold_M. rewrite Hc.
  destruct (json_loads (py_strip c)); reflexivity.
Qed.

(** [parse_json_from_text] depends on its input text only. *)
Lemma parse_json_from_text_trace (text : string) (tr tr' : trace) (v : json) :
  parse_json_from_text text tr = Ret v tr' -> tr' = tr /\ forall tr0, parse_json_from_text text tr0 = Ret v tr0.
Proof.
  destruct (parse_json_from_text_cases text) as [c Hc]. rewrite Hc.
  destruct (json_loads (py_strip c)) eqn:E; intros H; inversion H; subst.
  split; [reflexivity|]. intros tr0. rewrite Hc; rewrite ?E; reflexivity.
Qed.

(** [parse_json_from_text] either returns a value or raises [JSONDecodeError]. *)
Lemma parse_json_from_text_raise (text : string) (tr tr' : trace) (e : py_exn) :
  parse_json_from_text text tr = Raise e tr' -> e = JSONDecodeError /\ tr' = tr.
Proof.
  destruct (parse_json_from_text_cases text) as [c Hc]. rewrite Hc.
  destruct (json_loads (py_strip c)); intros H; inversion H; subst; auto.
Qed.

(** [parse_json_from_text] never diverges. *)
Lemma parse_json_from_text_total (text : string) (tr : trace) :
  (exists v, parse_json_from_text text tr = Ret v tr) \/ parse_json_from_text text tr = Raise JSONDecodeError tr.
Proof.
  destruct (parse_json_from_text_cases text) as [c Hc]. rewrite Hc.
  destruct (json_loads (py_strip c)); [left; eauto | right; reflexivity].
Qed.




(** ** Reference Verifier *)

Lemma search_queries_app (tr1 tr2 : trace) :
  search_queries (tr1 ++ tr2) = search_queries tr1 ++ search_queries tr2.
Proof. induction tr1 as [|[] tr1 IH]; simpl; rewrite ?IH; reflexivity. Qed.

(** Building [llm_map] does not touch the trace: it either yields a map or
    raises an exception that is not a parse error. *)
Lemma build_llm_map_pure (items : list json) (m : gmap string (list (string * json))) :
  (exists m', forall tr, build_llm_map items m tr = Ret m' tr) \/
  (exists e, is_parse_error e = false /\ forall tr, build_llm_map items m tr = Raise e tr).
Proof.
  revert m. induction items as [|r rest IH]; intros m.
  - left. exists m. reflexivity.
  - simpl. unfold verdict_key.
    destruct r as [| | | | |l|fields];
      try (right; eexists; split; [|intros tr; reflexivity]; reflexivity).
    destruct (obj_get fields "reference") as [key|];
      [|right; eexists; split; [|intros tr; reflexivity]; reflexivity].
    unfold mbind, M_bind, mret, M_ret; cbv beta iota.
    destruct (hashable key);
      [|right; eexists; split; [|intros tr; reflexivity]; reflexivity].
    destruct (IH (match key with JStr k => <[k := fields]> m | _ => m end)) as [[m' Hm]|[e [He Hm]]].
    + left. exists m'. intros tr. apply Hm.
    + right. exists e. split; [exact He|]. intros tr. apply Hm.
Qed.

(** For a reply of well-formed verdicts, [llm_map] maps each string to the
    last verdict carrying it. *)
Lemma build_llm_map_lookup (items : list json) :
  Forall well_formed_verdict items ->
  forall m tr, exists m', build_llm_map items m tr = Ret m' tr /\
    forall s, m' !! s = fold_left (verdict_step s) items (m !! s).
Proof.
  induction 1 as [|r rest Hr Hrest IH]; intros m tr.
  - exists m. split; reflexivity.
  - destruct Hr as (fields & key & -> & Hkey & Hhash).
    destruct (IH (match key with JStr k => <[k := fields]> m | _ => m end) tr) as (m' & Hm & Hlook).
    exists m'. split.
    + simpl. unfold verdict_key. rewrite Hkey.
      unfold mbind, M_bind, mret, M_ret; cbv beta iota. rewrite Hhash. exact Hm.
    + intros s. rewrite Hlook. simpl. f_equal. unfold verdict_step. rewrite Hkey.
      destruct key as [| | | | s'| |]; try reflexivity.
      rewrite lookup_insert. destruct (String.eqb_spec s' s) as [->|Hne].
      * rewrite decide_True by reflexivity. reflexivity.
      * rewrite decide_False by exact Hne. reflexivity.
Qed.

Lemma verdict_for_build (items : list json) (m' : gmap string (list (string * json))) :
  (forall s, m' !! s = fold_left (verdict_step s) items ((∅ : gmap string (list (string * json))) !! s)) ->
  forall s, m' !! s = verdict_for items s.
Proof. intros H s. rewrite H, lookup_empty. reflexivity. Qed.

Lemma map_M_cons {A B} (f : A -> M B) (x : A) (xs : list A) :
  map_M f (x :: xs) = (y ← f x; ys ← map_M f xs; mret (y :: ys)).
Proof. reflexivity. Qed.

(** Appending the parse-failure marker: the trace is untouched, the
    records keep their reference, verdict and URLs, and string notes get
    the marker; an exception raised is not a parse error. *)
Lemma map_M_append_parse_marker (recs : list ref_record) (tr : trace) :
  (Forall (fun r => exists s, notes r = JStr s) recs ->
   map_M append_parse_marker recs tr =
     Ret (map (fun r => set_notes r (JStr (match notes r with JStr s => s | _ => "" end +:+ parse_failure_marker))) recs) tr) /\
  (forall out tr', map_M append_parse_marker recs tr = Ret out tr' ->
     tr' = tr /\ map reference out = map reference recs /\ map search_urls out = map search_urls recs /\
     map verified out = map verified recs) /\
  (forall e tr', map_M append_parse_marker recs tr = Raise e tr' -> is_parse_error e = false /\ tr' = tr) /\
  (forall tr', map_M append_parse_marker recs tr <> Diverge tr').
Proof.
  induction recs as [|r rest IH].
  - split; [reflexivity|]. split; [intros out tr' H; inversion H; auto|].
    split; [intros e tr' H; inversion H|]. intros tr' H; inversion H.
  - destruct IH as (IH1 & IH2 & IH3 & IH4).
    rewrite map_M_cons. set (k := map_M append_parse_marker rest) in *.
    unfold append_parse_marker. unfold_M. unfold raise.
    destruct (notes r) as [| | | |s|items|] eqn:Hn; cbv beta iota;
      try (split; [intros Hall; inversion Hall as [|? ? [s' Hs'] _]; congruence|];
           split; [intros out tr' H; discriminate|];
           split; [intros e tr' H; inversion H; subst; auto|];
           intros tr' H; discriminate).
    (* a [str] or a [list]: the record is updated *)
    all: split; [intros Hall; inversion Hall as [|? ? [s' Hs'] Hall'];
                 first [congruence | rewrite (IH1 Hall'); simpl; rewrite Hn; reflexivity]|].
    all: (split; [|split];
      [ intros out tr' H; destruct (k tr) as [out' tr0| e tr0|tr0] eqn:E;
            inversion H; subst; destruct (IH2 _ _ eq_refl) as (-> & H1 & H2 & H3);
            simpl; rewrite H1, H2, H3; auto
         | intros e tr' H; destruct (k tr) as [out' tr0| e' tr0|tr0] eqn:E;
            inversion H; subst; apply (IH3 _ _ eq_refl)
         | intros tr' H; destruct (k tr) as [out' tr0| e' tr0|tr0] eqn:E;
            inversion H; subst; apply (IH4 _ eq_refl) ]).
Qed.

(** [merge_verdict] keeps the reference and the URLs. *)
Lemma merge_verdict_frame (m : gmap string (list (string * json))) (r : ref_record) :
  reference (merge_verdict m r) = reference r /\ search_urls (merge_verdict m r) = search_urls r.
Proof. unfold merge_verdict. destruct (m !! reference r); split; reflexivity. Qed.

(** Merging the same verdicts twice is merging them once. *)
Lemma merge_verdict_idem (m : gmap string (list (string * json))) (r : ref_record) :
  merge_verdict m (merge_verdict m r) = merge_verdict m r.
Proof.
  unfold merge_verdict. destruct (m !! reference r) as [f|] eqn:E; [|rewrite E; reflexivity].
  simpl. rewrite E. unfold obj_get_default. simpl.
  destruct (obj_get f "notes"); reflexivity.
Qed.

Lemma existsb_has_urls_filter (recs : list ref_record) :
  existsb has_urls recs = true <-> filter (fun r => has_urls r = true) recs <> [].
Proof.
  induction recs as [|r rest IH]; simpl.
  - split; [discriminate|]. intros H. exfalso. apply H. reflexivity.
  - rewrite filter_cons. destruct (has_urls r); simpl.
    + split; [discriminate|reflexivity].
    + exact IH.
Qed.

(** [verify_references_with_llm] once the model has replied [c]. *)
Lemma verify_on_reply (recs : list ref_record) (tr : trace) (c : content) :
  existsb has_urls recs = true -> llm tr (verify_prompt recs) = Replies c ->
  verify_references_with_llm recs tr =
    match parse_json_from_text (flatten_content c) (tr ++ [ELlmCall (verify_prompt recs)]) with
    | Ret (JArr items) tr2 =>
        match build_llm_map items ∅ tr2 with
        | Ret m tr3 => Ret (map (merge_verdict m) recs) tr3
        | Raise e tr3 => if is_parse_error e then map_M append_parse_marker recs tr3 else Raise e tr3
        | Diverge tr3 => Diverge tr3
        end
    | Ret _ tr2 => Ret recs tr2
    | Raise e tr2 => if is_parse_error e then map_M append_parse_marker recs tr2 else Raise e tr2
    | Diverge tr2 => Diverge tr2
    end.
Proof.
  intros Hurls Hllm. apply existsb_has_urls_filter in Hurls.
  unfold verify_references_with_llm.
  destruct (filter (fun r => has_urls r = true) recs) eqn:Hf; [congruence|].
  unfold invoke_llm, try_except. unfold_M. rewrite Hllm.
  destruct (parse_json_from_text (flatten_content c) (tr ++ [ELlmCall (verify_prompt recs)]))
    as [v tr2|e tr2|tr2]; [|reflexivity|reflexivity].
  destruct v as [| | | | |items|]; try reflexivity.
  destruct (build_llm_map items ∅ tr2); reflexivity.
Qed.

(** Without any URL the verifier returns its input untouched. *)
Lemma verify_no_urls (recs : list ref_record) (tr : trace) :
  existsb has_urls recs = false -> verify_references_with_llm recs tr = Ret recs tr.
Proof.
  intros H. unfold verify_references_with_llm.
  assert (Hf : filter (fun r => has_urls r = true) recs = []).
  { induction recs as [|r rest IH]; [reflexivity|].
    simpl in H. apply orb_false_iff in H as [H1 H2].
    rewrite filter_cons, decide_False by congruence. exact (IH H2). }
  rewrite Hf. reflexivity.
Qed.

(** The verifier keeps each record's reference and URLs, in order, and adds
    no search to the trace. *)
Lemma verify_references_frame (recs out : list ref_record) (tr tr' : trace) :
  verify_references_with_llm recs tr = Ret out tr' ->
  map reference out = map reference recs /\ map search_urls out = map search_urls recs /\
  search_queries tr' = search_queries tr.
Proof.
  destruct (existsb has_urls recs) eqn:Hurls.
  2: { rewrite verify_no_urls by exact Hurls. intros H; inversion H; subst; auto. }
  destruct (llm tr (verify_prompt recs)) as [c|msg] eqn:Hllm.
  2: { unfold verify_references_with_llm.
       destruct (filter (fun r => has_urls r = true) recs) eqn:Hf;
         [apply existsb_has_urls_filter in Hurls; congruence|].
       unfold invoke_llm. unfold_M. rewrite Hllm. discriminate. }
  rewrite (verify_on_reply recs tr c Hurls Hllm).
  destruct (parse_json_from_text_total (flatten_content c) (tr ++ [ELlmCall (verify_prompt recs)]))
    as [[v Hp]|Hp]; rewrite Hp.
  - assert (Hq : search_queries (tr ++ [ELlmCall (verify_prompt recs)]) = search_queries tr)
      by (rewrite search_queries_app, app_nil_r; reflexivity).
    destruct v as [| | | | |items|]; try (intros H; inversion H; subst; auto; fail).
    destruct (build_llm_map_pure items ∅) as [[m Hm]|[e [He Hm]]]; rewrite Hm.
    + intros H. inversion H; subst. rewrite !map_map.
      split; [|split; [|exact Hq]]; apply map_ext; intros r; apply merge_verdict_frame.
    + rewrite He. discriminate.
  - simpl. intros H. destruct (map_M_append_parse_marker recs (tr ++ [ELlmCall (verify_prompt recs)]))
      as (_ & H2 & _). destruct (H2 _ _ H) as (-> & H3 & H4 & _).
    rewrite search_queries_app, app_nil_r. auto.
Qed.

(** C5 (Reference Verifier, merge).  When the reply decodes to an array of
    verdicts (objects with a hashable ["reference"]), each record whose
    reference string is the ["reference"] of some verdict takes that
    verdict's ["verified"] (default [False]) and ["notes"] (default its own
    notes); every other record is returned unchanged. *)
Theorem verify_merges_matched (recs : list ref_record) (tr : trace) (c : content) (items : list json) :
  existsb has_urls recs = true ->
  llm tr (verify_prompt recs) = Replies c ->
  parse_json_from_text (flatten_content c) [] = Ret (JArr items) [] ->
  Forall well_formed_verdict items ->
  verify_references_with_llm recs tr =
    Ret (map (fun r => match verdict_for items (reference r) with
                       | Some f => mk_ref (reference r) (obj_get_default f "verified" (JBool false))
                                          (search_urls r) (obj_get_default f "notes" (notes r))
                       | None => r
                       end) recs)
        (tr ++ [ELlmCall (verify_prompt recs)]).
Proof.
  intros Hurls Hllm Hp Hwf. rewrite (verify_on_reply recs tr c Hurls Hllm).
  apply parse_json_from_text_trace in Hp as [_ Hp]. rewrite Hp.
  destruct (build_llm_map_lookup items Hwf ∅ (tr ++ [ELlmCall (verify_prompt recs)]))
    as (m & Hm & Hlook).
  rewrite Hm. f_equal. apply map_ext. intros r. unfold merge_verdict.
  rewrite (verdict_for_build items m Hlook). destruct (verdict_for items (reference r)); reflexivity.
Qed.


Lemma existsb_has_urls_merge (m : gmap string (list (string * json))) (recs : list ref_record) :
  existsb has_urls (map (merge_verdict m) recs) = existsb has_urls recs.
Proof.
  induction recs as [|r rest IH]; [reflexivity|]. simpl. rewrite IH. f_equal.
  unfold has_urls. rewrite (proj2 (merge_verdict_frame m r)). reflexivity.
Qed.

(** C8 (Reference Verifier, idempotence).  If the model's reply to the
    second run decodes to the same array of verdicts as its reply to the
    first run, the second run returns the records of the first unchanged. *)
Theorem verify_idempotent_same_verdicts (recs out1 : list ref_record) (tr tr1 : trace)
    (c1 c2 : content) (items : list json) :
  llm tr (verify_prompt recs) = Replies c1 ->
  llm tr1 (verify_prompt out1) = Replies c2 ->
  parse_json_from_text (flatten_content c1) [] = Ret (JArr items) [] ->
  parse_json_from_text (flatten_content c2) [] = Ret (JArr items) [] ->
  verify_references_with_llm recs tr = Ret out1 tr1 ->
  exists tr2, verify_references_with_llm out1 tr1 = Ret out1 tr2.
Proof.
  intros Hl1 Hl2 Hp1 Hp2 H.
  destruct (existsb has_urls recs) eqn:Hurls.
  2: { rewrite verify_no_urls in H by exact Hurls. inversion H; subst.
       exists tr1. apply verify_no_urls. exact Hurls. }
  rewrite (verify_on_reply recs tr c1 Hurls Hl1) in H.
  apply parse_json_from_text_trace in Hp1 as [_ Hp1]. rewrite Hp1 in H.
  destruct (build_llm_map_pure items ∅) as [[m Hm]|[e [He Hm]]]; rewrite Hm in H.
  2: { rewrite He in H. discriminate. }
  inversion H; subst out1 tr1. clear H.
  assert (Hurls' : existsb has_urls (map (merge_verdict m) recs) = true)
    by (rewrite existsb_has_urls_merge; exact Hurls).
  rewrite (verify_on_reply _ _ c2 Hurls' Hl2).
  apply parse_json_from_text_trace in Hp2 as [_ Hp2]. rewrite Hp2, Hm.
  eexists. f_equal. rewrite map_map. apply map_ext. intros r. apply merge_verdict_idem.
Qed.

(** C10 (Reference Verifier, frame).  Whenever the verifier returns, its
    result has the input's length and order, and each record keeps its
    reference and its URLs. *)
Theorem verify_keeps_reference_and_urls (recs out : list ref_record) (tr tr' : trace) :
  verify_references_with_llm recs tr = Ret out tr' ->
  length out = length recs /\
  map reference out = map reference recs /\ map search_urls out = map search_urls recs.
Proof.
  intros H. destruct (verify_references_frame recs out tr tr' H) as (H1 & H2 & _).
  split; [|split; assumption].
  rewrite <- (length_map reference out), <- (length_map reference recs), H1. reflexivity.
Qed.

(** ** Bibliography Pipeline *)

Lemma search_single_reference_step (q : string) (tr tr' : trace) (r : ref_record) :
  search_single_reference q tr = Ret r tr' ->
  reference r = q /\ search_queries tr' = search_queries tr ++ [q].
Proof.
  unfold_search.
  destruct (web_search tr q 3) as [d [urls|e]|];
    [destruct (d <=? search_timeout)%Z; [destruct urls|] | destruct (d <=? search_timeout)%Z; [destruct e|] |];
    simpl; intros H; inversion H; subst; split; try reflexivity;
    rewrite ?search_queries_app; simpl; rewrite ?app_nil_r, <- ?app_assoc; reflexivity.
Qed.

Lemma map_M_search_single_reference (refs : list string) :
  forall tr tr' recs, map_M search_single_reference refs tr = Ret recs tr' ->
  map reference recs = refs /\ search_queries tr' = search_queries tr ++ refs.
Proof.
  induction refs as [|q rest IH]; intros tr tr' recs H.
  - inversion H; subst. rewrite app_nil_r. auto.
  - rewrite map_M_cons in H. unfold_M.
    destruct (search_single_reference q tr) as [r tr1|e tr1|tr1] eqn:E; try discriminate.
    destruct (map_M search_single_reference rest tr1) as [rs tr2|e tr2|tr2] eqn:E2; try discriminate.
    inversion H; subst. apply search_single_reference_step in E as [Hr Hq].
    apply IH in E2 as [Hrs Hq2]. simpl. rewrite Hr, Hrs, Hq2, Hq, <- app_assoc. auto.
Qed.

Lemma extract_references_trace (essay_text : string) (tr tr1 : trace) (refs : list string) :
  extract_references_with_llm essay_text tr = Ret refs tr1 ->
  tr1 = tr ++ [ELlmCall (extract_prompt essay_text)].
Proof.
  unfold extract_references_with_llm, invoke_llm, try_except. unfold_M.
  destruct (llm tr (extract_prompt essay_text)) as [c|msg]; [|discriminate].
  destruct (parse_json_from_text_total (flatten_content c) (tr ++ [ELlmCall (extract_prompt essay_text)]))
    as [[v Hp]|Hp]; rewrite Hp.
  - destruct v; intros H; inversion H; reflexivity.
  - simpl. intros H; inversion H; reflexivity.
Qed.

(** C9 (Bibliography Pipeline).  If the extractor yields no reference, the
    pipeline returns [[]] and no search was made; whenever the pipeline
    returns, it made one search per extracted reference, in extraction
    order, and returns one record per reference in the same order. *)
Theorem verify_bibliography_per_reference (essay_text : string) (tr tr1 : trace) (refs : list string) :
  extract_references_with_llm essay_text tr = Ret refs tr1 ->
  (refs = [] -> verify_bibliography essay_text tr = Ret [] tr1 /\
                search_queries tr1 = search_queries tr) /\
  (forall out tr2, verify_bibliography essay_text tr = Ret out tr2 ->
     map reference out = refs /\ search_queries tr2 = search_queries tr ++ refs).
Proof.
  intros Hx. pose proof (extract_references_trace _ _ _ _ Hx) as Htr1.
  assert (Hq1 : search_queries tr1 = search_queries tr)
    by (subst tr1; rewrite search_queries_app, app_nil_r; reflexivity).
  unfold verify_bibliography. unfold_M. rewrite Hx. split.
  - intros ->. split; [reflexivity | exact Hq1].
  - intros out tr2. destruct refs as [|q rest].
    + intros H; inversion H; subst. rewrite Hq1, app_nil_r. auto.
    + destruct (map_M search_single_reference (q :: rest) tr1) as [recs tr3|e tr3|tr3] eqn:E;
        try discriminate.
      intros H. apply map_M_search_single_reference in E as [Hrefs Hq3].
      destruct (verify_references_frame recs out tr3 tr2 H) as (Hr & _ & Hq).
      rewrite Hr, Hrefs, Hq, Hq3, Hq1. auto.
Qed.


(* ------------------------------------------------------------------ *)
(** * Further properties of the code *)

(** ** The agent's search tool *)

Lemma str_append_assoc (a b c : string) : (a +:+ b) +:+ c = a +:+ (b +:+ c).
Proof.
  induction a as [|x a IH]; [reflexivity|].
  change ((String.String x a +:+ b) +:+ c) with (String.String x ((a +:+ b) +:+ c)).
  rewrite IH. reflexivity.
Qed.

(** The summary lists the URLs one per line, numbered from [i]. *)
Lemma numbered_urls_lines (i : nat) (urls : list string) :
  numbered_urls i urls =
  foldr String.append "" (imap (fun k u => "  " +:+ str_nat (i + k) +:+ ". " +:+ u +:+ nl) urls).
Proof.
  revert i; induction urls as [|u us IH]; intros i; [reflexivity|].
  cbn [numbered_urls]. rewrite imap_cons. cbn [foldr]. rewrite IH, Nat.add_0_r.
  assert (Himap : imap (fun k u => "  " +:+ str_nat (S i + k) +:+ ". " +:+ u +:+ nl) us =
                  imap ((fun k u => "  " +:+ str_nat (i + k) +:+ ". " +:+ u +:+ nl) ∘ S) us).
  { apply imap_ext. intros k x _. unfold compose. rewrite Nat.add_succ_r. reflexivity. }
  rewrite Himap, !str_append_assoc. reflexivity.
Qed.

(** [tools.search_reference] answers every finishing search with a text:
    the timeout message when the search finishes after 10 s or raises a
    [TimeoutError] of its own in time, the failure message with the cause
    when it raises any other exception in time, the "NO RESULTS FOUND"
    message for an empty list, and otherwise the summary listing the URLs
    numbered from 1; it sleeps only after a list of URLs.  A search that
    never finishes makes the tool never return. *)
Theorem search_reference_messages (query : string) (tr : trace) :
  match web_search tr query 3 with
  | Hangs => search_reference query tr = Diverge (tr ++ [ESearch query 3])
  | Finishes d r =>
      if (d <=? search_timeout)%Z then
        match r with
        | SearchReturns [] =>
            search_reference query tr =
              Ret ("NO RESULTS FOUND for: '" +:+ query +:+
                   "'. This reference may not exist or may be incorrectly cited.")
                  (tr ++ [ESearch query 3; ESleep rate_limit_delay])
        | SearchReturns urls =>
            search_reference query tr =
              Ret ("Search results for: '" +:+ query +:+ "':" +:+ nl +:+
                   foldr String.append ""
                     (imap (fun k u => "  " +:+ str_nat (S k) +:+ ". " +:+ u +:+ nl) urls) +:+
                   nl +:+ "Based on these results, assess whether the reference is real " +:+
                   "and correctly cited (authors, year, title, journal).")
                  (tr ++ [ESearch query 3; ESleep rate_limit_delay])
        | SearchRaises e =>
            search_reference query tr =
              Ret (if is_TimeoutError e
                   then "Search timed out for '" +:+ query +:+ "'. Could not verify this reference."
                   else "Search failed for '" +:+ query +:+ "': " +:+ py_exn_str e +:+
                        ". Could not verify this reference.")
                  (tr ++ [ESearch query 3])
        end
      else
        search_reference query tr =
          Ret ("Search timed out for '" +:+ query +:+ "'. Could not verify this reference.")
              (tr ++ [ESearch query 3])
  end.
Proof.
  pose proof (numbered_urls_lines 1) as Hn.
  unfold_search.
  destruct (web_search tr query 3) as [d [urls|e]|]; [| |reflexivity];
    destruct (d <=? search_timeout)%Z; [destruct urls| | destruct e |];
    cbn -[numbered_urls imap foldr str_nat String.append];
    rewrite <- ?app_assoc; try reflexivity.
  rewrite Hn. reflexivity.
Qed.

(** ** The extractor *)


(** ** The verifier without URLs *)

(** When no record has search URLs, [verify_references_with_llm] makes no
    model call and returns the same records, unchanged. *)
Theorem verify_without_urls_no_call (recs : list ref_record) (tr : trace) :
  Forall (fun r => search_urls r = []) recs ->
  verify_references_with_llm recs tr = Ret recs tr.
Proof.
  intros H. apply verify_no_urls.
  induction H as [|r rest Hr _ IH]; [reflexivity|].
  simpl. unfold has_urls at 1. rewrite Hr. exact IH.
Qed.

(** ** Extracted text *)

Lemma str_app_cons (c : ascii) (s t : string) : String.String c s +:+ t = String.String c (s +:+ t).
Proof. reflexivity. Qed.

Lemma str_app_nil_l (s : string) : "" +:+ s = s.
Proof. reflexivity. Qed.

Lemma string_len_ind (P : string -> Prop) :
  (forall s, (forall t, String.length t < String.length s -> P t) -> P s) -> forall s, P s.
Proof.
  intros H s. remember (String.length s) as n eqn:Hn. revert s Hn.
  induction n as [n IHn] using (well_founded_induction lt_wf).
  intros s ->. apply H. intros t Ht. exact (IHn _ Ht t eq_refl).
Qed.

(** The first code point read by [utf8_chars] from [String c1 s1], and the
    bytes after it. *)
Definition utf8_step (c1 : ascii) (s1 : string) : (Z * string) * string :=
  let b1 := byte_val c1 in
  let single := ((b1, String.String c1 String.EmptyString), s1) in
  if (b1 <? 194)%Z then single
  else if (b1 <? 224)%Z then
    match s1 with
    | String.String c2 s2 =>
        if is_cont c2
        then ((((b1 - 192) * 64 + (byte_val c2 - 128))%Z,
               String.String c1 (String.String c2 String.EmptyString)), s2)
        else single
    | _ => single
    end
  else if (b1 <? 240)%Z then
    match s1 with
    | String.String c2 (String.String c3 s3) =>
        let cp := ((b1 - 224) * 4096 + (byte_val c2 - 128) * 64 + (byte_val c3 - 128))%Z in
        if is_cont c2 && is_cont c3 && (2048 <=? cp)%Z
        then ((cp, String.String c1 (String.String c2 (String.String c3 String.EmptyString))), s3)
        else single
    | _ => single
    end
  else if (b1 <? 245)%Z then
    match s1 with
    | String.String c2 (String.String c3 (String.String c4 s4)) =>
        let cp := ((b1 - 240) * 262144 + (byte_val c2 - 128) * 4096 + (byte_val c3 - 128) * 64 +
                   (byte_val c4 - 128))%Z in
        if is_cont c2 && is_cont c3 && is_cont c4 && (65536 <=? cp)%Z && (cp <=? 1114111)%Z
        then ((cp, String.String c1 (String.String c2 (String.String c3
                 (String.String c4 String.EmptyString)))), s4)
        else single
    | _ => single
    end
  else single.

Ltac utf8_cases :=
  repeat (first
    [ reflexivity
    | progress cbv beta iota zeta
    | match goal with
      | |- context [if ?b then _ else _] => destruct b
      | |- context [match ?t with String.EmptyString => _ | String.String _ _ => _ end] => destruct t
      end ]).

Lemma utf8_chars_step (c1 : ascii) (s1 : string) :
  utf8_chars (String.String c1 s1) = (utf8_step c1 s1).1 :: utf8_chars (utf8_step c1 s1).2.
Proof. cbn [utf8_chars]. unfold utf8_step. utf8_cases. Qed.

Lemma utf8_step_length (c1 : ascii) (s1 : string) :
  String.length (utf8_step c1 s1).2 <= String.length s1.
Proof. unfold utf8_step. utf8_cases; cbn; lia. Qed.

Lemma utf8_step_bytes (c1 : ascii) (s1 : string) : exists t, (utf8_step c1 s1).1.2 = String.String c1 t.
Proof. unfold utf8_step. utf8_cases; eexists; reflexivity. Qed.

(** Reading stops before a byte that does not continue a sequence. *)
Lemma utf8_step_app (c1 c : ascii) (a1 r : string) :
  is_cont c = false ->
  utf8_step c1 (a1 +:+ String.String c r) = ((utf8_step c1 a1).1, (utf8_step c1 a1).2 +:+ String.String c r).
Proof.
  intros Hc. destruct a1 as [|c2 [|c3 [|c4 a4]]]; rewrite ?str_app_cons, ?str_app_nil_l; unfold utf8_step;
    repeat (first
      [ reflexivity
      | progress cbv beta iota zeta
      | progress rewrite ?Hc, ?andb_false_r, ?str_app_nil_l
      | match goal with
        | |- context [if ?b then _ else _] => destruct b
        | |- context [match ?t with String.EmptyString => _ | String.String _ _ => _ end] =>
            is_var t; destruct t
        end ]).
Qed.

Lemma utf8_chars_app (a : string) (c : ascii) (r : string) :
  is_cont c = false -> utf8_chars (a +:+ String.String c r) = utf8_chars a ++ utf8_chars (String.String c r).
Proof.
  intros Hc. induction a as [a IH] using string_len_ind.
  destruct a as [|c1 a1]; [reflexivity|].
  rewrite str_app_cons, (utf8_chars_step c1 (a1 +:+ _)), (utf8_chars_step c1 a1), utf8_step_app by exact Hc.
  cbn [fst snd app].
  f_equal. apply IH. pose proof (utf8_step_length c1 a1). cbn. lia.
Qed.

(** Every code point is encoded by at least one byte. *)
Lemma utf8_chars_nonempty (s : string) : Forall (fun cb => cb.2 <> "") (utf8_chars s).
Proof.
  induction s as [s IH] using string_len_ind.
  destruct s as [|c1 s1]; [constructor|]. rewrite utf8_chars_step. constructor.
  - destruct (utf8_step_bytes c1 s1) as [t ->]. discriminate.
  - apply IH. pose proof (utf8_step_length c1 s1). cbn. lia.
Qed.

Lemma drop_space_nil (cs : list (Z * string)) :
  drop_space cs = [] <-> forallb (fun cb => py_isspace cb.1) cs = true.
Proof.
  induction cs as [|cb cs IH]; [split; reflexivity|]. cbn [drop_space forallb].
  destruct (py_isspace cb.1); cbn [andb]; [exact IH|]. split; discriminate.
Qed.

Lemma forallb_drop_space (cs : list (Z * string)) :
  forallb (fun cb => py_isspace cb.1) (drop_space cs) = forallb (fun cb => py_isspace cb.1) cs.
Proof.
  induction cs as [|cb cs IH]; [reflexivity|]. cbn [drop_space forallb].
  destruct (py_isspace cb.1) eqn:E; [exact IH|]. cbn [forallb]. rewrite E. reflexivity.
Qed.

Lemma forallb_rev {A} (f : A -> bool) (l : list A) : forallb f (rev l) = forallb f l.
Proof.
  induction l as [|x l IH]; [reflexivity|]. cbn [rev forallb].
  rewrite forallb_app, IH. cbn [forallb]. rewrite andb_true_r, andb_comm. reflexivity.
Qed.

Lemma Forall_drop_space (P : Z * string -> Prop) (cs : list (Z * string)) :
  Forall P cs -> Forall P (drop_space cs).
Proof.
  induction 1 as [|cb cs Hcb Hcs IH]; [constructor|]. cbn [drop_space].
  destruct (py_isspace cb.1); [exact IH|constructor; assumption].
Qed.

Lemma chars_str_nil (cs : list (Z * string)) :
  Forall (fun cb => cb.2 <> "") cs -> chars_str cs = "" <-> cs = [].
Proof.
  intros H. split; [|intros ->; reflexivity].
  destruct H as [|[cp b] cs Hb _]; [reflexivity|].
  unfold chars_str. cbn [map]. destruct cs as [|cb' cs].
  - cbn. intros ->. contradiction.
  - change (String.concat "" (b :: map snd (cb' :: cs))) with (b +:+ "" +:+ String.concat "" (map snd (cb' :: cs))).
    destruct b as [|c b]; [contradiction|discriminate].
Qed.

Lemma rev_nil_iff {A} (l : list A) : rev l = [] <-> l = [].
Proof.
  split; [|intros ->; reflexivity].
  destruct l as [|x l]; [reflexivity|]. cbn [rev]. intros H. destruct (rev l); discriminate.
Qed.

(** [not s.strip()] holds exactly for blank strings. *)
Lemma py_strip_empty (s : string) : py_strip s = "" <-> is_blank s = true.
Proof.
  unfold py_strip, is_blank.
  rewrite chars_str_nil
    by (apply Forall_rev, Forall_drop_space, Forall_rev, Forall_drop_space, utf8_chars_nonempty).
  rewrite rev_nil_iff, drop_space_nil, forallb_rev, forallb_drop_space. reflexivity.
Qed.

Lemma is_blank_sep (a b : string) : is_blank (a +:+ (nl +:+ nl) +:+ b) = is_blank a && is_blank b.
Proof.
  unfold is_blank. change ((nl +:+ nl) +:+ b) with (String.String "010"%char (String.String "010"%char b)).
  rewrite utf8_chars_app by reflexivity. rewrite forallb_app, !utf8_chars_step. reflexivity.
Qed.

Lemma concat_blank (l : list string) :
  is_blank (String.concat (nl +:+ nl) l) = forallb is_blank l.
Proof.
  induction l as [|x l IH]; [reflexivity|].
  destruct l as [|y l].
  - cbn. rewrite andb_true_r. reflexivity.
  - change (String.concat (nl +:+ nl) (x :: y :: l)) with (x +:+ (nl +:+ nl) +:+ String.concat (nl +:+ nl) (y :: l)).
    rewrite is_blank_sep, IH. reflexivity.
Qed.

Lemma concat_empty (sep : string) (l : list string) :
  Forall (fun t => t <> "") l -> String.concat sep l = "" <-> l = [].
Proof.
  intros Hl. split; [|intros ->; reflexivity].
  destruct Hl as [|x l Hx _]; [reflexivity|].
  destruct l as [|y l]; [cbn; intros; contradiction|].
  change (String.concat sep (x :: y :: l)) with (x +:+ sep +:+ String.concat sep (y :: l)).
  destruct x; [contradiction|discriminate].
Qed.

Lemma forallb_is_blank_Forall (l : list string) :
  forallb is_blank l = true <-> Forall (fun t => is_blank t = true) l.
Proof. rewrite forallb_forall, List.Forall_forall. reflexivity. Qed.

Lemma filter_nonempty_nil (l : list string) :
  filter (fun t => t <> "") l = [] <-> Forall (fun t => t = "") l.
Proof.
  induction l as [|x l IH]; [split; [constructor|reflexivity]|].
  destruct (decide (x = "")) as [->|Hx].
  - rewrite filter_cons_False by tauto. rewrite IH.
    split; [constructor; auto | inversion 1; auto].
  - rewrite filter_cons_True by exact Hx. split; [discriminate | inversion 1; contradiction].
Qed.

Lemma filter_nonempty_Forall (l : list string) :
  Forall (fun t => t <> "") (filter (fun t => t <> "") l).
Proof.
  induction l as [|x l IH]; [constructor|].
  destruct (decide (x = "")) as [->|Hx].
  - rewrite filter_cons_False by tauto. exact IH.
  - rewrite filter_cons_True by exact Hx. constructor; assumption.
Qed.

Lemma filter_nonempty_blank (l : list string) :
  forallb is_blank (filter (fun t => t <> "") l) = forallb is_blank l.
Proof.
  induction l as [|x l IH]; [reflexivity|].
  destruct (decide (x = "")) as [->|Hx].
  - rewrite filter_cons_False by tauto. exact IH.
  - rewrite filter_cons_True by exact Hx. cbn [forallb]. rewrite IH. reflexivity.
Qed.

(** [tools.extract_pdf_text] returns [""] exactly when every page has an
    empty text, and a text that strips to [""] exactly when every page text
    is blank (which is when the app reports that it could not extract
    text). *)
Theorem extract_pdf_text_empty (page_texts : list string) :
  (extract_pdf_text page_texts = "" <-> Forall (fun t => t = "") page_texts) /\
  (py_strip (extract_pdf_text page_texts) = "" <->
     Forall (fun t => is_blank t = true) page_texts).
Proof.
  unfold extract_pdf_text. split.
  - rewrite concat_empty by apply filter_nonempty_Forall. apply filter_nonempty_nil.
  - rewrite py_strip_empty, concat_blank.
    rewrite filter_nonempty_blank. apply forallb_is_blank_Forall.
Qed.

(** The essay text of the command line and of the test fixture strips to
    [""] exactly when every page text is blank, so the fixture's
    [assert text.strip()] fails exactly then. *)
Theorem join_page_texts_blank (page_texts : list string) :
  py_strip (join_page_texts page_texts) = "" <-> Forall (fun t => is_blank t = true) page_texts.
Proof.
  unfold join_page_texts. rewrite py_strip_empty, concat_blank.
  apply forallb_is_blank_Forall.
Qed.

(** When no page has an empty text, the command line and the test fixture
    read the same essay text as [tools.extract_pdf_text]; they differ only
    by the separators that empty pages leave behind. *)
Theorem join_page_texts_no_empty (page_texts : list string) :
  Forall (fun t => t <> "") page_texts -> join_page_texts page_texts = extract_pdf_text page_texts.
Proof.
  intros H. unfold join_page_texts, extract_pdf_text. f_equal.
  induction H as [|x l Hx _ IH]; [reflexivity|].
  rewrite filter_cons_True by exact Hx. rewrite <- IH. reflexivity.
Qed.

(** ** The Streamlit app *)

Ltac unfold_app :=
  unfold mbind, AppM_bind, mret, AppM_ret, show, st_stop, app_raise in *; cbv beta iota.

Lemma AppM_bind_ok {A B} (m : AppM A) (k : A -> AppM B) (tr tr' : trace) (s s' : list ui) (a : A) :
  m tr s = AOk a tr' s' -> (x ← m; k x) tr s = k a tr' s'.
Proof. intros H. unfold mbind, AppM_bind. rewrite H. reflexivity. Qed.

Lemma AppM_bind_raise {A B} (m : AppM A) (k : A -> AppM B) (tr tr' : trace) (s s' : list ui) (e : app_exn) :
  m tr s = ARaise e tr' s' -> (x ← m; k x) tr s = ARaise e tr' s'.
Proof. intros H. unfold mbind, AppM_bind. rewrite H. reflexivity. Qed.

Lemma AppM_bind_stop {A B} (m : AppM A) (k : A -> AppM B) (tr tr' : trace) (s s' : list ui) :
  m tr s = AStop tr' s' -> (x ← m; k x) tr s = AStop tr' s'.
Proof. intros H. unfold mbind, AppM_bind. rewrite H. reflexivity. Qed.

(** [grade_essay] runs the agent once and never hangs. *)
Lemma grade_essay_trace (c e : string) (tr : trace) :
  match grade_essay c e tr with
  | Ret _ tr' | Raise _ tr' => tr' = tr ++ [EAgentRun (grading_prompt c e)]
  | Diverge _ => False
  end.
Proof.
  unfold grade_essay, run_agent, grade_from_message, try_except. unfold_M.
  destruct (agent tr (grading_prompt c e)) as [m|msg]; [|reflexivity].
  destruct (json_candidate_pure (flatten_content m)) as [x Hx]. rewrite Hx.
  destruct (json_loads (py_strip x)); reflexivity.
Qed.

(** Reading an uploaded file makes no external call: it yields a text or
    raises. *)
Lemma file_text_cases (f : option upload) (tr : trace) (s : list ui) :
  (exists x, file_text f tr s = AOk x tr s) \/ (exists e, file_text f tr s = ARaise e tr s).
Proof.
  destruct f as [u|]; [|right; eexists; reflexivity].
  unfold file_text, extract_text_from_file.
  destruct (py_endswith ".pdf" (py_lower (upload_name u))); [destruct (upload_pages u)|];
    unfold_app; eauto.
Qed.

Lemma eqb_empty_false (x : string) : String.eqb x "" = false -> x <> "".
Proof. intros H ->. discriminate. Qed.

(** Lines 50-61 make no external call; when they go on, both texts are
    non-blank and pasted non-blank criteria are used stripped. *)
Lemma app_grading_texts_spec (inp : app_inputs) (tr : trace) (s : list ui) :
  match app_grading_texts inp tr s with
  | AOk (c, e) tr' _ =>
      tr' = tr /\ py_strip c <> "" /\ py_strip e <> "" /\
      (forall t, criteria_input inp = Some t -> py_strip t <> "" -> c = py_strip t)
  | AStop tr' _ | ARaise _ tr' _ => tr' = tr
  | ADiverge _ _ => False
  end.
Proof.
  unfold app_grading_texts.
  set (crit := match criteria_input inp with
               | Some t => if negb (String.eqb (py_strip t) "") then mret (py_strip t)
                           else file_text (criteria_file inp)
               | None => file_text (criteria_file inp)
               end : AppM string).
  assert (Hcrit : (exists c, crit tr s = AOk c tr s /\
                    forall t, criteria_input inp = Some t -> py_strip t <> "" -> c = py_strip t) \/
                  (exists e, crit tr s = ARaise e tr s)).
  { subst crit. destruct (criteria_input inp) as [t|] eqn:Ht.
    - destruct (String.eqb (py_strip t) "") eqn:Hs; cbn [negb].
      + destruct (file_text_cases (criteria_file inp) tr s) as [[x Hx]|[e Hx]]; [left|right; eauto].
        exists x. split; [exact Hx|]. intros t' Ht' Hne. inversion Ht'; subst t'.
        apply String.eqb_eq in Hs. contradiction.
      + left. exists (py_strip t). split; [reflexivity|]. intros t' Ht' _. inversion Ht'. reflexivity.
    - destruct (file_text_cases (criteria_file inp) tr s) as [[x Hx]|[e Hx]]; [left|right; eauto].
      exists x. split; [exact Hx|]. discriminate. }
  destruct Hcrit as [[c [Hc Hp]]|[e Hc]]; [|rewrite (AppM_bind_raise _ _ _ _ _ _ _ Hc); reflexivity].
  rewrite (AppM_bind_ok _ _ _ _ _ _ _ Hc).
  destruct (file_text_cases (essay_upload inp) tr s) as [[x Hx]|[e Hx]];
    [|rewrite (AppM_bind_raise _ _ _ _ _ _ _ Hx); reflexivity].
  rewrite (AppM_bind_ok _ _ _ _ _ _ _ Hx).
  unfold_app.
  destruct (String.eqb (py_strip c) "") eqn:Ec; [reflexivity|].
  destruct (String.eqb (py_strip x) "") eqn:Ex; [reflexivity|].
  split; [reflexivity|]. split; [exact (eqb_empty_false _ Ec)|]. split; [exact (eqb_empty_false _ Ex)|].
  exact Hp.
Qed.

(** Showing a result makes no external call and never hangs. *)
Lemma app_show_result_trace (v : json) (tr : trace) (s : list ui) :
  app_final_trace (app_show_result v tr s) = tr /\ app_ends (app_show_result v tr s) = true.
Proof.
  unfold app_show_result.
  destruct v as [| | | | | |fields]; unfold_app; try (split; reflexivity).
  destruct (py_truthy (obj_get_default fields "parse_error" JNull)); [split; reflexivity|].
  unfold show_rendered. destruct (render_result fields) as [els [ex|]]; split; reflexivity.
Qed.

(** The grading handler ends, and it calls the agent once at most, with two
    non-blank texts. *)
Lemma app_grade_spec (inp : app_inputs) (tr : trace) (s : list ui) :
  app_ends (app_grade inp tr s) = true /\
  (app_final_trace (app_grade inp tr s) = tr \/
   exists c e, app_final_trace (app_grade inp tr s) = tr ++ [EAgentRun (grading_prompt c e)] /\
     py_strip c <> "" /\ py_strip e <> "" /\
     (forall t, criteria_input inp = Some t -> py_strip t <> "" -> c = py_strip t)).
Proof.
  unfold app_grade.
  pose proof (app_grading_texts_spec inp tr s) as Hs.
  destruct (app_grading_texts inp tr s) as [[c e] tr1 s2|tr1 s2|ex tr1 s2|tr1 s2] eqn:Ht;
    [| subst tr1; rewrite (AppM_bind_stop _ _ _ _ _ _ Ht); split; [reflexivity|left; reflexivity]
     | subst tr1; rewrite (AppM_bind_raise _ _ _ _ _ _ _ Ht); split; [reflexivity|left; reflexivity]
     | contradiction].
  destruct Hs as (-> & Hc & He & Hp).
  rewrite (AppM_bind_ok _ _ _ _ _ _ _ Ht). cbv beta iota.
  pose proof (grade_essay_trace c e tr) as Hg2. unfold lift_M, elapsed_now. unfold_app.
  destruct (grade_essay c e tr) as [v tr2|ex tr2|tr2]; [| |contradiction]; subst tr2.
  - match goal with |- context [app_show_result v ?t ?u] =>
      destruct (app_show_result_trace v t u) as [H1 H2]; rewrite H1, H2 end. split; [reflexivity|]. right. exists c, e. auto.
  - split; [reflexivity|]. right. exists c, e. auto.
Qed.

(** With an agent run that returns (the agent is an oracle here), a run of
    [app.py] ends, and it calls the agent at most once:
    only when criteria and an essay are provided and "Grade Essay" is
    clicked, and then with two texts that are not blank, the criteria being
    the stripped pasted text when non-blank text is pasted.  Otherwise it
    makes no external call. *)
Theorem app_agent_only_on_texts (inp : app_inputs) (tr : trace) :
  app_ends (app_main inp tr []) = true /\
  (app_final_trace (app_main inp tr []) = tr \/
   (app_ready inp = true /\ grade_clicked inp = true /\
    exists c e, app_final_trace (app_main inp tr []) = tr ++ [EAgentRun (grading_prompt c e)] /\
      py_strip c <> "" /\ py_strip e <> "" /\
      (forall t, criteria_input inp = Some t -> py_strip t <> "" -> c = py_strip t))).
Proof.
  unfold app_main. unfold_app.
  destruct (app_ready inp) eqn:Hr; [|split; [reflexivity|left; reflexivity]].
  destruct (grade_clicked inp) eqn:Hg; [|split; [reflexivity|left; reflexivity]].
  match goal with |- context [app_grade inp tr ?s0] => generalize s0 end. intros s0.
  destruct (app_grade_spec inp tr s0) as [Hend [Htr|Htr]].
  - split; [exact Hend|left; exact Htr].
  - split; [exact Hend|right; auto].
Qed.

(** When the grading result is an object with a truthy ["parse_error"] (the
    envelope [grade_essay] builds for a reply it cannot parse), the app
    shows the caption, the warning and the ["raw_response"] (or "No
    response"), then stops without showing any score. *)
Theorem app_grade_parse_error (inp : app_inputs) (tr tr' : trace) (s s1 : list ui)
    (c e : string) (fields : list (string * json)) :
  app_grading_texts inp tr s = AOk (c, e) tr s1 ->
  grade_essay c e tr = Ret (JObj fields) tr' ->
  py_truthy (obj_get_default fields "parse_error" JNull) = true ->
  app_grade inp tr s =
    AStop tr' (s1 ++ [UCaption (grading_caption (elapsed_secs tr'));
                      UWarning "The agent returned a non-structured response. Showing raw output:";
                      UMarkdownValue (obj_get_default fields "raw_response" (JStr "No response"))]).
Proof.
  intros Ht Hg Hp. unfold app_grade.
  rewrite (AppM_bind_ok _ _ _ _ _ _ _ Ht). cbv beta iota.
  unfold lift_M, elapsed_now, app_show_result. unfold_app. rewrite Hg. rewrite Hp.
  rewrite <- !app_assoc. reflexivity.
Qed.

(** When the grading result is not an object (the agent's reply decodes to
    a list, a string, a number, ...), the app shows the caption and then
    fails with [AttributeError] on [result.get]. *)
Theorem app_grade_non_object (inp : app_inputs) (tr tr' : trace) (s s1 : list ui)
    (c e : string) (v : json) :
  app_grading_texts inp tr s = AOk (c, e) tr s1 ->
  grade_essay c e tr = Ret v tr' ->
  (forall fields, v <> JObj fields) ->
  app_grade inp tr s =
    ARaise (AttributeError ("'" +:+ type_name v +:+ "' object has no attribute 'get'")) tr'
      (s1 ++ [UCaption (grading_caption (elapsed_secs tr'))]).
Proof.
  intros Ht Hg Hv. unfold app_grade.
  rewrite (AppM_bind_ok _ _ _ _ _ _ _ Ht). cbv beta iota.
  unfold lift_M, elapsed_now, app_show_result. unfold_app. rewrite Hg.
  destruct v as [| | | | | |fields]; try reflexivity. exfalso. exact (Hv fields eq_refl).
Qed.

(** ** The command line *)

(** [search_single_reference] never raises: it returns a record or never
    returns. *)
Lemma search_single_reference_total (q : string) (tr : trace) :
  (exists r tr', search_single_reference q tr = Ret r tr') \/
  (exists tr', search_single_reference q tr = Diverge tr').
Proof.
  unfold_search.
  destruct (web_search tr q 3) as [d [urls|e]|];
    [destruct (d <=? search_timeout)%Z; [destruct urls|] | destruct (d <=? search_timeout)%Z; [destruct e|] |];
    simpl; eauto.
Qed.

(** In the single-reference mode the command line searches the arguments
    joined with spaces, once, and prints the header line and then the
    record as [json.dumps(result, indent=2)]; it never fails, but it hangs
    with the search. *)
Theorem cli_reference_mode (prog arg1 : string) (rest : list string) (tr : trace) :
  arg1 <> "--essay" ->
  let q := String.concat " " (arg1 :: rest) in
  match search_single_reference q tr with
  | Ret rec tr' =>
      cli_main (prog :: arg1 :: rest) tr [] =
        COk () tr' ["Searching for: " +:+ q +:+ nl; json_dumps_indent2 (record_json rec)] /\
      reference rec = q /\ search_queries tr' = search_queries tr ++ [q]
  | Raise _ _ => False
  | Diverge tr' => cli_main (prog :: arg1 :: rest) tr [] = CDiverge tr' ["Searching for: " +:+ q +:+ nl]
  end.
Proof.
  intros Ha. cbv zeta. unfold cli_main.
  rewrite (proj2 (String.eqb_neq _ _) Ha).
  unfold mbind, CliM_bind, cli_print, cli_lift, mret, CliM_ret. cbv beta iota.
  destruct (search_single_reference_total (String.concat " " (arg1 :: rest)) tr)
    as [[r [tr' E]]|[tr' E]]; rewrite E; [|reflexivity].
  split; [reflexivity|]. exact (search_single_reference_step _ _ _ _ E).
Qed.

Lemma print_records_lines (rs : list ref_record) (tr : trace) (out : list string) :
  print_records rs tr out = COk () tr (out ++ flat_map record_lines rs).
Proof.
  revert out; induction rs as [|r rs IH]; intros out.
  - rewrite app_nil_r. reflexivity.
  - cbn [print_records]. unfold mbind, CliM_bind, cli_print. rewrite IH.
    rewrite <- !app_assoc. reflexivity.
Qed.

(** Without an argument the command line prints the usage and exits with
    status 1, and [--essay] without a path fails with [IndexError]; neither
    makes an external call.  With a readable PDF, the essay mode prints the
    number of characters of the joined page texts, runs the pipeline on
    them, and prints three lines per returned record, or "No references
    found in the essay." *)
Theorem cli_essay_mode (prog : string) (tr : trace) :
  (forall argv, length argv < 2 -> cli_main argv tr [] = CEnd (CliExit 1) tr usage_lines) /\
  cli_main [prog; "--essay"] tr [] = CEnd (CliError IndexError) tr [] /\
  (forall path more page_texts, read_pdf path = Some page_texts ->
     let text := join_page_texts page_texts in
     let header := ["Extracted " +:+ str_nat (py_len text) +:+ " characters from " +:+ path;
                    "Running full bibliography verification pipeline..." +:+ nl] in
     match verify_bibliography text tr with
     | Ret rs tr' =>
         cli_main (prog :: "--essay" :: path :: more) tr [] =
           COk () tr' (header ++ match rs with
                                 | [] => ["No references found in the essay."]
                                 | _ => flat_map record_lines rs
                                 end)
     | Raise e tr' => cli_main (prog :: "--essay" :: path :: more) tr [] = CEnd (CliError e) tr' header
     | Diverge tr' => cli_main (prog :: "--essay" :: path :: more) tr [] = CDiverge tr' header
     end).
Proof.
  split; [|split; [reflexivity|]].
  - intros [|a [|b argv]] H; [reflexivity|reflexivity|]. cbn in H. lia.
  - intros path more page_texts Hr. cbv zeta. unfold cli_main. rewrite String.eqb_refl.
    rewrite Hr. unfold mbind, CliM_bind, cli_print, cli_lift, mret, CliM_ret. cbv beta iota.
    destruct (verify_bibliography (join_page_texts page_texts) tr) as [rs tr'|e tr'|tr'];
      [|reflexivity|reflexivity].
    destruct rs as [|r rs]; [reflexivity|].
    rewrite print_records_lines. reflexivity.
Qed.

End Program.

Arguments AOk {A}. Arguments AStop {A}. Arguments ARaise {A}. Arguments ADiverge {A}.
Arguments COk {A}. Arguments CEnd {A}. Arguments CDiverge {A}.
(* ================================================================== *)
(** * Witnesses and counterexamples *)






(** C5: a verdict for the first of two searched references. *)
Lemma verify_merges_matched_witness :
  existsb has_urls demo_records = true /\
  demo_model [] (verify_prompt demo_records) = Replies (CStr demo_verdicts) /\
  parse_json_from_text json_loads_fragment (flatten_content (CStr demo_verdicts)) [] = Ret (JArr demo_items) [] /\
  Forall well_formed_verdict demo_items /\
  verify_references_with_llm demo_model json_loads_fragment demo_records [] =
    Ret (map (fun r => match verdict_for demo_items (reference r) with
                       | Some f => mk_ref (reference r) (obj_get_default f "verified" (JBool false))
                                          (search_urls r) (obj_get_default f "notes" (notes r))
                       | None => r
                       end) demo_records)
        ([] ++ [ELlmCall (verify_prompt demo_records)]).
Proof.
  assert (Hwf : Forall well_formed_verdict demo_items).
  { constructor; [|constructor]. do 2 eexists. split; [reflexivity|]. split; reflexivity. }
  split; [reflexivity|]. split; [vm_compute; reflexivity|].
  split; [vm_compute; reflexivity|]. split; [exact Hwf|].
  apply (verify_merges_matched demo_model json_loads_fragment demo_records [] (CStr demo_verdicts) demo_items);
    [reflexivity | vm_compute; reflexivity | vm_compute; reflexivity | exact Hwf].
Defined.



(** C7 (code_bug).  A reply that decodes to an array whose element is not an
    object makes [verify_references_with_llm] raise [TypeError]: the
    [except] clause catches only [JSONDecodeError] and [IndexError].  The
    extractor accepts the same reply. *)
Theorem verify_non_object_verdict_raises :
  verify_references_with_llm (fixed_reply "[1]") json_loads_fragment demo_records [] =
    Raise (TypeError "'int' object is not subscriptable") [ELlmCall (verify_prompt demo_records)] /\
  extract_references_with_llm (fixed_reply "[1]") json_loads_fragment isprintable_latin1 "An essay." [] =
    Ret ["1"] [ELlmCall (extract_prompt "An essay.")].
Proof. split; vm_compute; reflexivity. Qed.

(** C8: the same verdicts on both runs. *)
Lemma verify_idempotent_same_verdicts_witness :
  demo_model [] (verify_prompt demo_records) = Replies (CStr demo_verdicts) /\
  demo_model [ELlmCall (verify_prompt demo_records)]
    (verify_prompt [mk_ref "Smith (2020)" (JBool true) ["https://example.org/a"] (JStr "Publisher page matches.");
                    mk_ref "Doe (1999)" (JBool false) ["https://example.org/b"] (JStr "Found 1 search results.")])
    = Replies (CStr demo_verdicts) /\
  parse_json_from_text json_loads_fragment (flatten_content (CStr demo_verdicts)) [] = Ret (JArr demo_items) [] /\
  verify_references_with_llm demo_model json_loads_fragment demo_records [] =
    Ret [mk_ref "Smith (2020)" (JBool true) ["https://example.org/a"] (JStr "Publisher page matches.");
         mk_ref "Doe (1999)" (JBool false) ["https://example.org/b"] (JStr "Found 1 search results.")]
        [ELlmCall (verify_prompt demo_records)] /\
  exists tr2,
    verify_references_with_llm demo_model json_loads_fragment
      [mk_ref "Smith (2020)" (JBool true) ["https://example.org/a"] (JStr "Publisher page matches.");
       mk_ref "Doe (1999)" (JBool false) ["https://example.org/b"] (JStr "Found 1 search results.")]
      [ELlmCall (verify_prompt demo_records)] =
    Ret [mk_ref "Smith (2020)" (JBool true) ["https://example.org/a"] (JStr "Publisher page matches.");
         mk_ref "Doe (1999)" (JBool false) ["https://example.org/b"] (JStr "Found 1 search results.")] tr2.
Proof.
  split; [vm_compute; reflexivity|]. split; [vm_compute; reflexivity|].
  split; [vm_compute; reflexivity|]. split; [vm_compute; reflexivity|].
  apply (verify_idempotent_same_verdicts demo_model json_loads_fragment demo_records
           [mk_ref "Smith (2020)" (JBool true) ["https://example.org/a"] (JStr "Publisher page matches.");
            mk_ref "Doe (1999)" (JBool false) ["https://example.org/b"] (JStr "Found 1 search results.")]
           [] [ELlmCall (verify_prompt demo_records)]
           (CStr demo_verdicts) (CStr demo_verdicts) demo_items);
    vm_compute; reflexivity.
Defined.

(** C8: with a judge that never answers JSON, the second run appends the
    marker a second time. *)
Lemma verify_twice_marks_twice :
  let mark := fun r => set_notes r (JStr (match notes r with JStr s => s | _ => "" end +:+
                                          parse_failure_marker)) in
  let out1 := map mark demo_records in
  verify_references_with_llm (fixed_reply "not json") json_loads_fragment demo_records [] =
    Ret out1 [ELlmCall (verify_prompt demo_records)] /\
  verify_references_with_llm (fixed_reply "not json") json_loads_fragment out1
    [ELlmCall (verify_prompt demo_records)] =
    Ret (map mark out1) [ELlmCall (verify_prompt demo_records); ELlmCall (verify_prompt out1)] /\
  map notes (map mark out1) <> map notes out1.
Proof.
  split; [vm_compute; reflexivity|]. split; [vm_compute; reflexivity|].
  vm_compute. intros H. discriminate H.
Qed.

(** C9: the pipeline on an essay citing two works, with fast searches. *)
Lemma verify_bibliography_per_reference_witness :
  extract_references_with_llm demo_model json_loads_fragment isprintable_latin1 "An essay." [] =
    Ret ["Smith (2020)"; "Doe (1999)"] [ELlmCall (extract_prompt "An essay.")] /\
  ((["Smith (2020)"; "Doe (1999)"] = [] ->
    verify_bibliography search_fast demo_model json_loads_fragment isprintable_latin1 "An essay." [] =
      Ret [] [ELlmCall (extract_prompt "An essay.")] /\
    search_queries [ELlmCall (extract_prompt "An essay.")] = search_queries []) /\
   (forall out tr2,
      verify_bibliography search_fast demo_model json_loads_fragment isprintable_latin1 "An essay." [] = Ret out tr2 ->
      map reference out = ["Smith (2020)"; "Doe (1999)"] /\
      search_queries tr2 = search_queries [] ++ ["Smith (2020)"; "Doe (1999)"])).
Proof.
  split; [vm_compute; reflexivity|].
  apply verify_bibliography_per_reference. vm_compute. reflexivity.
Defined.

(** C10: the verifier run on the two searched references. *)
Lemma verify_keeps_reference_and_urls_witness :
  verify_references_with_llm demo_model json_loads_fragment demo_records [] =
    Ret [mk_ref "Smith (2020)" (JBool true) ["https://example.org/a"] (JStr "Publisher page matches.");
         mk_ref "Doe (1999)" (JBool false) ["https://example.org/b"] (JStr "Found 1 search results.")]
        [ELlmCall (verify_prompt demo_records)] /\
  length [mk_ref "Smith (2020)" (JBool true) ["https://example.org/a"] (JStr "Publisher page matches.");
          mk_ref "Doe (1999)" (JBool false) ["https://example.org/b"] (JStr "Found 1 search results.")]
    = length demo_records /\
  map reference [mk_ref "Smith (2020)" (JBool true) ["https://example.org/a"] (JStr "Publisher page matches.");
                 mk_ref "Doe (1999)" (JBool false) ["https://example.org/b"] (JStr "Found 1 search results.")]
    = map reference demo_records /\
  map search_urls [mk_ref "Smith (2020)" (JBool true) ["https://example.org/a"] (JStr "Publisher page matches.");
                   mk_ref "Doe (1999)" (JBool false) ["https://example.org/b"] (JStr "Found 1 search results.")]
    = map search_urls demo_records.
Proof.
  split; [vm_compute; reflexivity|].
  apply (verify_keeps_reference_and_urls demo_model json_loads_fragment demo_records
           [mk_ref "Smith (2020)" (JBool true) ["https://example.org/a"] (JStr "Publisher page matches.");
            mk_ref "Doe (1999)" (JBool false) ["https://example.org/b"] (JStr "Found 1 search results.")]
           [] [ELlmCall (verify_prompt demo_records)]).
  vm_compute. reflexivity.
Defined.



(** A record whose search found nothing is returned without a model call. *)
Lemma verify_without_urls_no_call_witness :
  Forall (fun r => search_urls r = []) [mk_ref "Doe (1999)" (JBool false) [] (JStr "Search timed out.")] /\
  verify_references_with_llm demo_model json_loads_fragment
    [mk_ref "Doe (1999)" (JBool false) [] (JStr "Search timed out.")] [] =
    Ret [mk_ref "Doe (1999)" (JBool false) [] (JStr "Search timed out.")] [].
Proof.
  split; [repeat constructor|].
  apply verify_without_urls_no_call. repeat constructor.
Defined.

(** Three page texts, none of them empty, give the same essay text in the
    command line and in the app. *)
Lemma join_page_texts_no_empty_witness :
  Forall (fun t => t <> "") ["Intro"; "Body"; "References"] /\
  join_page_texts ["Intro"; "Body"; "References"] = extract_pdf_text ["Intro"; "Body"; "References"].
Proof.
  assert (H : Forall (fun t => t <> "") ["Intro"; "Body"; "References"])
    by (repeat constructor; discriminate).
  split; [exact H|]. apply join_page_texts_no_empty. exact H.
Defined.

(** The app with pasted criteria and an essay uploaded as ["Essay.PDF"] whose
    second page is empty: a prose reply of the agent is shown raw. *)
Lemma app_grade_parse_error_witness :
  app_grading_texts (mk_inputs "Paste text" "  Clarity (10 pts)  " None
                       (Some (mk_upload "Essay.PDF" (Some ["An essay."; ""]) "")) true) [] [] =
    AOk ("Clarity (10 pts)", "An essay.") [] [] /\
  grade_essay (fun _ _ => Replies (CStr "Score: 7")) json_loads_fragment "Clarity (10 pts)" "An essay." [] =
    Ret (JObj [("raw_response", JStr "Score: 7"); ("parse_error", JBool true)])
        [EAgentRun (grading_prompt "Clarity (10 pts)" "An essay.")] /\
  py_truthy (obj_get_default [("raw_response", JStr "Score: 7"); ("parse_error", JBool true)]
               "parse_error" JNull) = true /\
  app_grade (fun _ _ => Replies (CStr "Score: 7")) json_loads_fragment (fun _ => 75) (fun _ => ([], None))
    (mk_inputs "Paste text" "  Clarity (10 pts)  " None
       (Some (mk_upload "Essay.PDF" (Some ["An essay."; ""]) "")) true) [] [] =
    AStop [EAgentRun (grading_prompt "Clarity (10 pts)" "An essay.")]
      ([] ++ [UCaption (grading_caption 75);
              UWarning "The agent returned a non-structured response. Showing raw output:";
              UMarkdownValue (obj_get_default [("raw_response", JStr "Score: 7"); ("parse_error", JBool true)]
                                "raw_response" (JStr "No response"))]).
Proof.
  assert (H1 : app_grading_texts (mk_inputs "Paste text" "  Clarity (10 pts)  " None
                       (Some (mk_upload "Essay.PDF" (Some ["An essay."; ""]) "")) true) [] [] =
                 AOk ("Clarity (10 pts)", "An essay.") [] []) by (vm_compute; reflexivity).
  assert (H2 : grade_essay (fun _ _ => Replies (CStr "Score: 7")) json_loads_fragment
                 "Clarity (10 pts)" "An essay." [] =
               Ret (JObj [("raw_response", JStr "Score: 7"); ("parse_error", JBool true)])
                   [EAgentRun (grading_prompt "Clarity (10 pts)" "An essay.")]) by (vm_compute; reflexivity).
  assert (H3 : py_truthy (obj_get_default [("raw_response", JStr "Score: 7"); ("parse_error", JBool true)]
                            "parse_error" JNull) = true) by reflexivity.
  split; [exact H1|]. split; [exact H2|]. split; [exact H3|].
  exact (app_grade_parse_error (fun _ _ => Replies (CStr "Score: 7")) json_loads_fragment (fun _ => 75)
           (fun _ => ([], None)) _ [] _ [] [] _ _ _ H1 H2 H3).
Defined.

(** An agent reply that is a fenced JSON array makes the app fail on
    [result.get]. *)
Lemma app_grade_non_object_witness :
  app_grading_texts (mk_inputs "Upload file" "" (Some (mk_upload "criteria.txt" None "Clarity (10 pts)"))
                       (Some (mk_upload "essay.txt" None "An essay.")) true) [] [] =
    AOk ("Clarity (10 pts)", "An essay.") [] [] /\
  grade_essay (fun _ _ => Replies (CStr (quotes "```json [^Good^, 7] ```"))) json_loads_fragment
    "Clarity (10 pts)" "An essay." [] =
    Ret (JArr [JStr "Good"; JInt 7]) [EAgentRun (grading_prompt "Clarity (10 pts)" "An essay.")] /\
  (forall fields, JArr [JStr "Good"; JInt 7] <> JObj fields) /\
  app_grade (fun _ _ => Replies (CStr (quotes "```json [^Good^, 7] ```"))) json_loads_fragment
    (fun _ => 75) (fun _ => ([], None))
    (mk_inputs "Upload file" "" (Some (mk_upload "criteria.txt" None "Clarity (10 pts)"))
       (Some (mk_upload "essay.txt" None "An essay.")) true) [] [] =
    ARaise (AttributeError ("'" +:+ type_name (JArr [JStr "Good"; JInt 7]) +:+ "' object has no attribute 'get'"))
      [EAgentRun (grading_prompt "Clarity (10 pts)" "An essay.")]
      ([] ++ [UCaption (grading_caption 75)]).
Proof.
  assert (H1 : app_grading_texts (mk_inputs "Upload file" "" (Some (mk_upload "criteria.txt" None "Clarity (10 pts)"))
                       (Some (mk_upload "essay.txt" None "An essay.")) true) [] [] =
                 AOk ("Clarity (10 pts)", "An essay.") [] []) by (vm_compute; reflexivity).
  assert (H2 : grade_essay (fun _ _ => Replies (CStr (quotes "```json [^Good^, 7] ```"))) json_loads_fragment
                 "Clarity (10 pts)" "An essay." [] =
               Ret (JArr [JStr "Good"; JInt 7]) [EAgentRun (grading_prompt "Clarity (10 pts)" "An essay.")])
    by (vm_compute; reflexivity).
  assert (H3 : forall fields, JArr [JStr "Good"; JInt 7] <> JObj fields) by discriminate.
  split; [exact H1|]. split; [exact H2|]. split; [exact H3|].
  exact (app_grade_non_object (fun _ _ => Replies (CStr (quotes "```json [^Good^, 7] ```"))) json_loads_fragment
           (fun _ => 75) (fun _ => ([], None)) _ [] _ [] [] _ _ _ H1 H2 H3).
Defined.

(** [python bibliography.py Smith (2020)] searches ["Smith (2020)"] once. *)
Lemma cli_reference_mode_witness :
  "Smith" <> "--essay" /\
  cli_main search_fast demo_model json_loads_fragment isprintable_latin1 (fun _ => None)
    ["bibliography.py"; "Smith"; "(2020)"] [] [] =
    COk () [ESearch "Smith (2020)" 3; ESleep rate_limit_delay]
      ["Searching for: " +:+ "Smith (2020)" +:+ nl;
       json_dumps_indent2 (record_json (mk_ref "Smith (2020)" (JBool false) ["https://example.org/a"]
                                         (JStr "Found 1 search results.")))] /\
  reference (mk_ref "Smith (2020)" (JBool false) ["https://example.org/a"] (JStr "Found 1 search results.")) =
    "Smith (2020)" /\
  search_queries [ESearch "Smith (2020)" 3; ESleep rate_limit_delay] = search_queries [] ++ ["Smith (2020)"].
Proof.
  assert (Ha : "Smith" <> "--essay") by discriminate.
  split; [exact Ha|].
  exact (cli_reference_mode search_fast demo_model json_loads_fragment isprintable_latin1 (fun _ => None)
           "bibliography.py" "Smith" ["(2020)"] [] Ha).
Defined.

(** [python bibliography.py --essay essay.pdf] on a two-page PDF whose second
    page is empty: the verdict for the first reference is printed. *)
Lemma cli_essay_mode_witness :
  (fun _ : string => Some ["Smith (2020) and Doe (1999) agree."; ""]) "essay.pdf" =
    Some ["Smith (2020) and Doe (1999) agree."; ""] /\
  cli_main search_fast demo_model json_loads_fragment isprintable_latin1 (fun _ => Some ["Smith (2020) and Doe (1999) agree."; ""])
    ["bibliography.py"; "--essay"; "essay.pdf"] [] [] =
    COk ()
      [ELlmCall (extract_prompt (join_page_texts ["Smith (2020) and Doe (1999) agree."; ""]));
       ESearch "Smith (2020)" 3; ESleep rate_limit_delay; ESearch "Doe (1999)" 3; ESleep rate_limit_delay;
       ELlmCall (verify_prompt
         [mk_ref "Smith (2020)" (JBool false) ["https://example.org/a"] (JStr "Found 1 search results.");
          mk_ref "Doe (1999)" (JBool false) ["https://example.org/a"] (JStr "Found 1 search results.")])]
      ["Extracted " +:+ str_nat 36 +:+ " characters from essay.pdf";
       "Running full bibliography verification pipeline..." +:+ nl;
       "[VERIFIED] Smith (2020)"; "  URLs: ['https://example.org/a']";
       "  Notes: Publisher page matches." +:+ nl;
       "[UNVERIFIED] Doe (1999)"; "  URLs: ['https://example.org/a']";
       "  Notes: Found 1 search results." +:+ nl].
Proof.
  assert (Hr : (fun _ : string => Some ["Smith (2020) and Doe (1999) agree."; ""]) "essay.pdf" =
                 Some ["Smith (2020) and Doe (1999) agree."; ""]) by reflexivity.
  pose proof (proj2 (proj2 (cli_essay_mode search_fast demo_model json_loads_fragment isprintable_latin1
                (fun _ => Some ["Smith (2020) and Doe (1999) agree."; ""]) "bibliography.py" []))
                "essay.pdf" [] _ Hr) as H.
  assert (Hv : verify_bibliography search_fast demo_model json_loads_fragment isprintable_latin1
                 (join_page_texts ["Smith (2020) and Doe (1999) agree."; ""]) [] =
               Ret [mk_ref "Smith (2020)" (JBool true) ["https://example.org/a"] (JStr "Publisher page matches.");
                    mk_ref "Doe (1999)" (JBool false) ["https://example.org/a"] (JStr "Found 1 search results.")]
                 [ELlmCall (extract_prompt (join_page_texts ["Smith (2020) and Doe (1999) agree."; ""]));
                  ESearch "Smith (2020)" 3; ESleep rate_limit_delay; ESearch "Doe (1999)" 3;
                  ESleep rate_limit_delay;
                  ELlmCall (verify_prompt
                    [mk_ref "Smith (2020)" (JBool false) ["https://example.org/a"] (JStr "Found 1 search results.");
                     mk_ref "Doe (1999)" (JBool false) ["https://example.org/a"] (JStr "Found 1 search results.")])])
    by (vm_compute; reflexivity).
  cbv zeta in H. rewrite Hv in H.
  split; [exact Hr|]. exact H.
Defined.
